(** * The tab/session store of the console (ConnectionTabsService)

    A shallow embedding of the two variants of [ConnectionTabsService] found
    in the sources:
    - [src/unnamed/part_000] (debounce of 3000 ms, [NEW_QUERY_TAB_literal]), and
    - the second half of [src/src/pages/console/sidebar/db-connection-header.tsx]
      (debounce of 1000 ms, [newContentTab]).

    The service is a closure over two solid-js stores, a tauri [Store] on
    disk, a debounced writer and the backend reached through [invoke].  It is
    modelled by a record [State] that is threaded through a small state and
    exception monad [M]; every external call leaves an [event] in a trace.
    part_000 puts one module-level object, [NEW_QUERY_TAB], into the content
    store; [State] records what that object holds and which content tabs
    carry its data object. *)

From stdpp Require Import gmap strings list.
From Stdlib Require Import ZArith Lia.

Local Open Scope Z_scope.

(** ** Data model *)

(** Modelled from the spec: [DbSchema], [ConnectionConfig] (imported from
    [../interfaces]) and the row type [Record<string, any>] are not declared
    in the sources.  The service never looks inside them; they only travel
    through JSON, so they are taken to be JSON trees. *)
#[local] Unset Elimination Schemes.
Inductive json : Type :=
| JNull
| JBool (b : bool)
| JNum (n : Z)
| JStr (s : string)
| JArr (xs : list json)
| JObj (fields : list (string * json)).
#[local] Set Elimination Schemes.

Definition DbSchema : Type := json.
Definition ConnectionConfig : Type := json.
Definition Row : Type := json.

Module MessageType.
Inductive t : Type := error | info | success | warning.
End MessageType.

Inductive ContentComponentKeys : Type := QueryTab | TableStructureTab.

Record QueryContentTabData : Type := mkQueryData {
  query : string;
  results : list Row;
}.

Record TableStructureContentTabData : Type := mkTableData {
  table : string;
  structure : list Row;
  indices : list Row;
  foreignKeys : list Row;
  triggers : list Row;
}.

(** [ContentTabData[C]]: the two shapes the [data] field can hold.  The
    source replaces [data] without looking at [key], so the shape is not
    tied to [key] here either. *)
Inductive ContentTabData : Type :=
| QueryData (d : QueryContentTabData)
| TableStructureData (d : TableStructureContentTabData).

Record TabMessage : Type := mkMessage {
  message : string;
  type : MessageType.t;
}.

Module ContentTab.
Record t : Type := mk {
  label : string;
  key : ContentComponentKeys;
  data : ContentTabData;
  error : option TabMessage;
}.
End ContentTab.

Module ConnectionTab.
Record t : Type := mk {
  label : string;
  id : string;
  schema : DbSchema;
  connection : ConnectionConfig;
}.
End ConnectionTab.

(** [ConnectionStore] and [ContentStore] have the same shape
    [{ tabs: T[]; idx: number }]. *)
Record Store (T : Type) : Type := mkStore {
  tabs : list T;
  idx : Z;
}.
Arguments mkStore {T} _ _.
Arguments tabs {T} _.
Arguments idx {T} _.

Definition ConnectionStore : Type := Store ConnectionTab.t.
Definition ContentStore : Type := Store ContentTab.t.

(** [createStore({ tabs: [], idx: 0 })] *)
Definition empty_store {T : Type} : Store T := mkStore [] 0.

Definition CONNECTIONS_TABS_KEY : string := "_conn_tabs".
Definition CONTENT_TABS_KEY : string := "_content_tabs".

(** The object literal of [NEW_QUERY_TAB] in part_000: what that object
    holds when the module is loaded.  The object itself is one, shared and
    mutable: see the field [NEW_QUERY_TAB] of [State]. *)
Definition NEW_QUERY_TAB_literal : ContentTab.t :=
  ContentTab.mk "Query" QueryTab (QueryData (mkQueryData "" [])) None.

(** [newContentTab(label, key)] of db-connection-header.tsx.  Its [default:]
    branch throws on a key outside the enumeration; [ContentComponentKeys]
    has no such value. *)
Definition newContentTab (label : string) (key : ContentComponentKeys)
  : ContentTab.t :=
  match key with
  | QueryTab =>
      ContentTab.mk label key (QueryData (mkQueryData "" [])) None
  | TableStructureTab =>
      ContentTab.mk label key
        (TableStructureData (mkTableData "" [] [] [] [])) None
  end.

(** A value of TypeScript type [any] where a [A] is expected: either the
    array literal [[]] (the default of [getSavedData]) or a value that has
    the declared type. *)
Inductive any (A : Type) : Type :=
| empty_array
| of_type (a : A).
Arguments empty_array {A}.
Arguments of_type {A} _.

(** [JSON.stringify] and [JSON.parse ... as A].  [parse] is [None] when
    [JSON.parse] throws its SyntaxError; text that parses is taken at the
    type the source casts it to. *)
Class JSON (A : Type) : Type := {
  stringify : A -> string;
  parse : string -> option A;
}.

(** The two variants of the service. *)
Inductive variant : Type :=
| Part000      (* src/unnamed/part_000 *)
| ConnHeader.  (* src/src/pages/console/sidebar/db-connection-header.tsx *)

(** ** State, trace and monad *)

Inductive event : Type :=
| StoreGet (key : string)
| StoreSet (key value : string)
| StoreSave
| StoreClear
| Invoke (config : ConnectionConfig) (ok : bool)
| ConsoleLog.

Record State : Type := mkState {
  connectionStore : ConnectionStore;
  contentStore : ContentStore;
  timer : option nat;          (* ms left before the debounced body runs *)
  disk : gmap string string;   (* new Store(".connections.dat") *)
  trace : list event;          (* external calls, oldest first *)
  NEW_QUERY_TAB : ContentTab.t;
    (* part_000: what the module-level object NEW_QUERY_TAB holds now *)
  shares_data : list bool;
    (* part_000: whether the data object of the content tab at each
       position is the data object of NEW_QUERY_TAB (no entry: it is not) *)
}.

Inductive exn : Type := TypeError | SyntaxError | InvokeRejected.

Inductive outcome (A : Type) : Type :=
| Returns (a : A) (s : State)
| Throws (e : exn) (s : State).
Arguments Returns {A} _ _.
Arguments Throws {A} _ _.

Definition M (A : Type) : Type := State -> outcome A.

#[global] Instance M_ret : MRet M := fun A a s => Returns a s.
#[global] Instance M_bind : MBind M := fun A B f m s =>
  match m s with
  | Returns a s' => f a s'
  | Throws e s' => Throws e s'
  end.

Definition throw {A : Type} (e : exn) : M A := fun s => Throws e s.

(** [try { body } catch (e) { handler(e) }] *)
Definition try_catch {A : Type} (body : M A) (handler : exn -> M A) : M A :=
  fun s =>
    match body s with
    | Returns a s' => Returns a s'
    | Throws e s' => handler e s'
    end.

Definition get : M State := fun s => Returns s s.
Definition modify (f : State -> State) : M unit := fun s => Returns tt (f s).
Definition emit (e : event) : M unit :=
  modify (fun s =>
    mkState (connectionStore s) (contentStore s) (timer s) (disk s)
            (trace s ++ [e]) (NEW_QUERY_TAB s) (shares_data s)).

Definition state_of {A : Type} (o : outcome A) : State :=
  match o with Returns _ s => s | Throws _ s => s end.

(** ** The service *)

Section ConnectionTabsService.

Context `{JSON ConnectionStore} `{JSON ContentStore}.

(** The backend behind [invoke("init_connection", { config })]: whether
    the call resolves, given the calls made so far. *)
Variable init_connection : list event -> ConnectionConfig -> bool.

Variable v : variant.

(** *** The external calls *)

(** [await store.get(key)]: the stored text, or [null].  The call is
    taken to resolve: a rejection by the store itself is outside the
    model. *)
Definition store_get (key : string) : M (option string) :=
  emit (StoreGet key);;
  s ← get;
  mret (disk s !! key).

(** [await store.set(key, value)] *)
Definition store_set (key value : string) : M unit :=
  emit (StoreSet key value);;
  modify (fun s =>
    mkState (connectionStore s) (contentStore s) (timer s)
            (<[key := value]> (disk s)) (trace s)
            (NEW_QUERY_TAB s) (shares_data s)).

(** [await store.save()] *)
Definition store_save : M unit := emit StoreSave.

(** [await store.clear()] *)
Definition store_clear : M unit :=
  emit StoreClear;;
  modify (fun s =>
    mkState (connectionStore s) (contentStore s) (timer s) ∅ (trace s)
            (NEW_QUERY_TAB s) (shares_data s)).

(** [await invoke("init_connection", { config })]: the promise resolves
    or rejects; either way the call is in the trace. *)
Definition invoke_init_connection (config : ConnectionConfig) : M unit :=
  s ← get;
  let ok := init_connection (trace s) config in
  emit (Invoke config ok);;
  if ok then mret tt else throw InvokeRejected.

Definition console_log : M unit := emit ConsoleLog.

(** [JSON.parse(str as string)] *)
Definition JSON_parse {A : Type} `{JSON A} (str : string) : M A :=
  match parse str with
  | Some a => mret a
  | None => throw SyntaxError
  end.

(** *** The solid-js store setters

    [setStore("field", value)] replaces the field; [setStore(fn)] merges
    the own keys of [fn(prev)] into the store.  A value of the store's
    type has both keys; [[]] has none. *)
Definition setConnectionStore_tabs (ts : list ConnectionTab.t) : M unit :=
  modify (fun s =>
    mkState (mkStore ts (idx (connectionStore s))) (contentStore s)
            (timer s) (disk s) (trace s) (NEW_QUERY_TAB s) (shares_data s)).

Definition setConnectionStore_idx (i : Z) : M unit :=
  modify (fun s =>
    mkState (mkStore (tabs (connectionStore s)) i) (contentStore s)
            (timer s) (disk s) (trace s) (NEW_QUERY_TAB s) (shares_data s)).

(** [setContentStore("tabs", ts)]: the store holds the objects of the
    array [ts] themselves; [shared] tells which of them carry the data
    object of [NEW_QUERY_TAB]. *)
Definition setContentStore_tabs (ts : list ContentTab.t)
    (shared : list bool) : M unit :=
  modify (fun s =>
    mkState (connectionStore s) (mkStore ts (idx (contentStore s)))
            (timer s) (disk s) (trace s) (NEW_QUERY_TAB s) shared).

(** [setConnectionStore(() => ({ ...conn_tabs, tabs }))] *)
Definition setConnectionStore_spread (conn_tabs : any ConnectionStore)
    (ts : list ConnectionTab.t) : M unit :=
  modify (fun s =>
    let i := match conn_tabs with
             | of_type saved => idx saved
             | empty_array => idx (connectionStore s)
             end in
    mkState (mkStore ts i) (contentStore s) (timer s) (disk s) (trace s)
            (NEW_QUERY_TAB s) (shares_data s)).

(** [setContentStore(() => content as ContentStore)] *)
Definition setContentStore_merge (content : any ContentStore) : M unit :=
  modify (fun s =>
    match content with
    | of_type saved =>
        mkState (connectionStore s) saved (timer s) (disk s) (trace s)
                (NEW_QUERY_TAB s) []
    | empty_array => s
    end).

(** *** getSavedData *)

(** [!str] for what [store.get] resolves to. *)
Definition falsy (str : option string) : bool :=
  match str with
  | None => true
  | Some str => String.eqb str ""
  end.

(** [getSavedData(key, defaultValue)].  Past the test of [!str] the text is
    not empty.  Both call sites leave [defaultValue] out, so it is [[]]
    there: see [getSavedData_default]. *)
Definition getSavedData {A : Type} `{JSON A} (key : string)
    (defaultValue : any A) : M (any A) :=
  str ← store_get key;
  if falsy str then mret defaultValue
  else
    try_catch
      (res ← JSON_parse (default "" str);
       mret (of_type res))
      (fun e => mret defaultValue).

Definition getSavedData_default {A : Type} `{JSON A} (key : string)
  : M (any A) :=
  getSavedData key empty_array.

(** *** Hydration: the callback of [onMount] *)

(** [xs.reduce(async (acc, x) => ..., Promise.resolve(init))] where the
    callback awaits [acc] first: the calls run one after the other, in the
    order of the array. *)
Fixpoint reduce_async {A B : Type} (f : B -> A -> M B) (xs : list A)
    (init : B) : M B :=
  match xs with
  | [] => mret init
  | x :: xs' => b ← f init x; reduce_async f xs' b
  end.

(** The body of the reducer once [acc] has resolved to [res].  In the
    [catch], [return acc] hands back the promise that already resolved to
    [res]. *)
Definition reconnect (res : list ConnectionTab.t) (conn : ConnectionTab.t)
  : M (list ConnectionTab.t) :=
  try_catch
    (invoke_init_connection (ConnectionTab.connection conn);;
     mret (res ++ [conn]))
    (fun e => console_log;; mret res).

(** [conn_tabs.tabs.reduce]: for [[]] the property [tabs] is [undefined]
    and reading [reduce] off it raises a TypeError. *)
Definition tabs_reduce (conn_tabs : any ConnectionStore)
  : M (list ConnectionTab.t) :=
  match conn_tabs with
  | of_type saved => reduce_async reconnect (tabs saved) []
  | empty_array => throw TypeError
  end.

Definition onMount : M unit :=
  conn_tabs ← getSavedData_default CONNECTIONS_TABS_KEY;
  ts ← tabs_reduce conn_tabs;
  setConnectionStore_spread conn_tabs ts;;
  content ← getSavedData_default CONTENT_TABS_KEY;
  setContentStore_merge content.

(** *** The debounced writer *)

(** The [async] function handed to [debounce]: it reads both stores when
    it runs. *)
Definition updateStore_body : M unit :=
  s ← get;
  store_set CONNECTIONS_TABS_KEY (stringify (connectionStore s));;
  s ← get;
  store_set CONTENT_TABS_KEY (stringify (contentStore s));;
  store_save.

(** The second argument of [debounce]. *)
Definition wait : nat :=
  match v with
  | Part000 => 3000
  | ConnHeader => 1000
  end.

(** Modelled from the spec: [debounce] of [utils/utils] is not among the
    sources.  "A new mutation arriving while a write is pending simply
    reschedules the timer (the previous pending invocation is superseded,
    not run twice)": a call of the debounced function (re)starts a timer of
    [ms] milliseconds, and the wrapped function runs once when the timer
    expires. *)
Definition debounce_call (ms : nat) : M unit :=
  modify (fun s =>
    mkState (connectionStore s) (contentStore s) (Some ms) (disk s)
            (trace s) (NEW_QUERY_TAB s) (shares_data s)).

(** Modelled from the spec: [dt] milliseconds go by without a call of the
    service; a timer that expires in that time runs [fn]. *)
Definition debounce_elapse (fn : M unit) (dt : nat) : M unit :=
  s ← get;
  match timer s with
  | None => mret tt
  | Some remaining =>
      if (remaining <=? dt)%nat then
        modify (fun s =>
          mkState (connectionStore s) (contentStore s) None (disk s)
                  (trace s) (NEW_QUERY_TAB s) (shares_data s));;
        fn
      else
        modify (fun s =>
          mkState (connectionStore s) (contentStore s)
                  (Some (remaining - dt)%nat) (disk s) (trace s)
                  (NEW_QUERY_TAB s) (shares_data s))
  end.

Definition updateStore : M unit := debounce_call wait.

Definition elapse (dt : nat) : M unit := debounce_elapse updateStore_body dt.

(** *** The operations *)

(** [xs[i]] for a number [i]: [undefined] off the ends. *)
Definition js_index {T : Type} (xs : list T) (i : Z) : option T :=
  if decide (0 ≤ i) then xs !! Z.to_nat i else None.

(** The tab [addTab] puts in the content store: part_000 puts the object
    [NEW_QUERY_TAB] itself, with whatever it holds by now;
    db-connection-header.tsx builds a new object with [newContentTab]. *)
Definition new_query_tab (s : State) : ContentTab.t :=
  match v with
  | Part000 => NEW_QUERY_TAB s
  | ConnHeader => newContentTab "Query" QueryTab
  end.

(** Whether that tab carries the data object of [NEW_QUERY_TAB]. *)
Definition new_query_tab_shared : bool :=
  match v with
  | Part000 => true
  | ConnHeader => false
  end.

Definition addTab (tab : ConnectionTab.t) : M unit :=
  s ← get;
  match List.find
          (fun t => String.eqb (ConnectionTab.id t) (ConnectionTab.id tab))
          (tabs (connectionStore s)) with
  | Some _ => mret tt
  | None =>
      setConnectionStore_tabs (tabs (connectionStore s) ++ [tab]);;
      setContentStore_tabs [new_query_tab s] [new_query_tab_shared];;
      s ← get;
      let idx := Z.of_nat (length (tabs (connectionStore s))) in
      setConnectionStore_idx idx;;
      updateStore
  end.

Definition removeTab (id : string) : M unit :=
  s ← get;
  setConnectionStore_tabs
    (filter (fun t => ConnectionTab.id t ≠ id) (tabs (connectionStore s)));;
  setConnectionStore_idx 0;;
  updateStore.

Definition clearStore : M unit := store_clear.

Definition getActiveConnection (s : State) : option ConnectionTab.t :=
  js_index (tabs (connectionStore s)) (idx (connectionStore s) - 1).

Definition getActiveContentTab (s : State) : option ContentTab.t :=
  js_index (tabs (contentStore s)) (idx (contentStore s)).

(** [{ ...t, data }], and [{ ...t, data, key: ContentComponent.QueryTab }]
    in db-connection-header.tsx. *)
Definition with_data (data : QueryContentTabData) (t : ContentTab.t)
  : ContentTab.t :=
  match v with
  | Part000 =>
      ContentTab.mk (ContentTab.label t) (ContentTab.key t) (QueryData data)
                    (ContentTab.error t)
  | ConnHeader =>
      ContentTab.mk (ContentTab.label t) QueryTab (QueryData data)
                    (ContentTab.error t)
  end.

(** [{ ...t, error }] *)
Definition with_error (e : option TabMessage) (t : ContentTab.t)
  : ContentTab.t :=
  ContentTab.mk (ContentTab.label t) (ContentTab.key t) (ContentTab.data t) e.

(** [contentStore.tabs.map((t, i) => i === contentStore.idx ? f(t) : t)] *)
Definition map_active (f : ContentTab.t -> ContentTab.t) (s : State)
  : list ContentTab.t :=
  imap (fun i t => if Z.of_nat i =? idx (contentStore s) then f t else t)
       (tabs (contentStore s)).

(** Which tabs carry the data object of [NEW_QUERY_TAB] after
    [{ ...t, data }] at the cursor: the new object there carries the [data]
    of the caller.  [{ ...t, error }] copies the reference to the data
    object of [t], so that map leaves [shares_data] as it is. *)
Definition shares_after_data (s : State) : list bool :=
  imap (fun i shared =>
          if Z.of_nat i =? idx (contentStore s) then false else shared)
       (shares_data s).

Definition setActiveContentQueryTabData (data : QueryContentTabData)
  : M unit :=
  s ← get;
  match getActiveContentTab s with
  | None => mret tt
  | Some _ =>
      setContentStore_tabs (map_active (with_data data) s)
                           (shares_after_data s)
  end.

Definition resetActiveContentQueryTabMessage : M unit :=
  s ← get;
  match getActiveContentTab s with
  | None => mret tt
  | Some _ =>
      setContentStore_tabs (map_active (with_error None) s) (shares_data s)
  end.

Definition setActiveContentQueryTabMessage (type : MessageType.t)
    (message : string) : M unit :=
  s ← get;
  match getActiveContentTab s with
  | None => mret tt
  | Some _ =>
      setContentStore_tabs
        (map_active (with_error (Some (mkMessage message type))) s)
        (shares_data s)
  end.

(** *** A write through the exported [setContentStore]

    The service hands [setContentStore] to its consumers.  Of the writes it
    allows, this is the path write
    [setContentStore("tabs", i, "data", "query", q)]: solid-js walks to the
    data object of the tab at [i] and sets its [query] in place, so every
    tab that carries the same data object shows the new text, and so does
    [NEW_QUERY_TAB] when it is its data object.  With no tab at [i] the walk
    reads a property of [undefined].  (On table-structure data the write
    adds a [query] property, which the record does not show.) *)
Definition set_query (q : string) (t : ContentTab.t) : ContentTab.t :=
  match ContentTab.data t with
  | QueryData d =>
      ContentTab.mk (ContentTab.label t) (ContentTab.key t)
                    (QueryData (mkQueryData q (results d)))
                    (ContentTab.error t)
  | TableStructureData _ => t
  end.

Definition setContentStore_query (i : nat) (q : string) : M unit :=
  s ← get;
  match tabs (contentStore s) !! i with
  | None => throw TypeError
  | Some _ =>
      let shared := default false (shares_data s !! i) in
      let same_object (j : nat) : bool :=
        Nat.eqb j i || (shared && default false (shares_data s !! j)) in
      modify (fun s =>
        mkState (connectionStore s)
                (mkStore (imap (fun j t => if same_object j then set_query q t
                                           else t)
                               (tabs (contentStore s)))
                         (idx (contentStore s)))
                (timer s) (disk s) (trace s)
                (if shared then set_query q (NEW_QUERY_TAB s)
                 else NEW_QUERY_TAB s)
                (shares_data s))
  end.

End ConnectionTabsService.

Arguments getActiveConnection : simpl never.
Arguments getActiveContentTab : simpl never.

(** The calls of the service the claims quantify over. *)
Inductive operation : Type :=
| AddTab (tab : ConnectionTab.t)
| RemoveTab (id : string)
| SetActiveContentQueryTabData (data : QueryContentTabData)
| SetActiveContentQueryTabMessage (type : MessageType.t) (message : string)
| ResetActiveContentQueryTabMessage.

Definition run_operation (v : variant) (op : operation) : M unit :=
  match op with
  | AddTab tab => addTab v tab
  | RemoveTab id => removeTab v id
  | SetActiveContentQueryTabData data => setActiveContentQueryTabData v data
  | SetActiveContentQueryTabMessage type message =>
      setActiveContentQueryTabMessage type message
  | ResetActiveContentQueryTabMessage => resetActiveContentQueryTabMessage
  end.

(** The ids of a sequence of connection tabs, and the test of [addTab]. *)
Definition ids (ts : list ConnectionTab.t) : list string :=
  ConnectionTab.id <$> ts.

Definition same_id (tab t : ConnectionTab.t) : bool :=
  String.eqb (ConnectionTab.id t) (ConnectionTab.id tab).


(** How many tabs of [ts] carry the id [id]. *)
Definition entries_with_id (id : string) (ts : list ConnectionTab.t) : nat :=
  length (filter (fun t => ConnectionTab.id t = id) ts).

(** ** Concrete stores used in the examples *)

Definition example_config (name : string) : ConnectionConfig :=
  JObj [("name", JStr name); ("dialect", JStr "Postgres")].

Definition example_tab (id : string) : ConnectionTab.t :=
  ConnectionTab.mk id id (JObj []) (example_config id).

(** The state right after [ConnectionTabsService()] on a first launch. *)
Definition initial_state : State :=
  mkState empty_store empty_store None ∅ [] NEW_QUERY_TAB_literal [].

Definition example_query_data : QueryContentTabData :=
  mkQueryData "select 1" [JObj [("?column?", JNum 1)]].

Definition example_table_tab : ContentTab.t :=
  newContentTab "users" TableStructureTab.

(** A content store with a table-structure tab under the cursor. *)
Definition table_tab_state : State :=
  mkState empty_store (mkStore [example_table_tab; NEW_QUERY_TAB_literal] 0)
          None ∅ [] NEW_QUERY_TAB_literal [].

(** part_000 after [addTab] of a first connection and a write of the query
    text of its tab through the exported [setContentStore]. *)
Definition written_state : State :=
  state_of
    ((addTab Part000 (example_tab "pg");;
      setContentStore_query 0 "select 1") initial_state).

(** A content store with two query tabs, the second one active. *)
Definition two_tabs_state : State :=
  mkState empty_store
          (mkStore [NEW_QUERY_TAB_literal; NEW_QUERY_TAB_literal] 1) None ∅ []
          NEW_QUERY_TAB_literal [].

(** ** Statements about the operations *)

(** The cursor of the content store points at a tab whenever there is
    one. *)
Definition content_idx_in_range (s : State) : Prop :=
  tabs (contentStore s) ≠ [] →
  0 ≤ idx (contentStore s) < Z.of_nat (length (tabs (contentStore s))).

(** Running [op] in [s] keeps the cursor of the content store in range. *)
Definition preserves_content_idx (v : variant) (op : operation) (s : State)
  : Prop :=
  content_idx_in_range s →
  content_idx_in_range (state_of (run_operation v op s)).

(** What [setActiveContentQueryTabData(d)] does to the tab at position [i],
    given what the [key] of the active tab becomes: the active tab gets the
    data [d] and keeps its label and error, every other tab is the same. *)
Definition data_replaced_at (s : State) (d : QueryContentTabData)
    (new_key : ContentTab.t -> ContentComponentKeys)
    (i : nat) (t t' : ContentTab.t) : Prop :=
  if decide (Z.of_nat i = idx (contentStore s)) then
    ContentTab.data t' = QueryData d ∧
    ContentTab.label t' = ContentTab.label t ∧
    ContentTab.key t' = new_key t ∧
    ContentTab.error t' = ContentTab.error t
  else t' = t.

Definition data_update (v : variant) (s : State) (d : QueryContentTabData)
    (new_key : ContentTab.t -> ContentComponentKeys) : Prop :=
  is_Some (getActiveContentTab s) →
  ∃ s' : State,
    setActiveContentQueryTabData v d s = Returns tt s' ∧
    length (tabs (contentStore s')) = length (tabs (contentStore s)) ∧
    ∀ (i : nat) (t : ContentTab.t),
      tabs (contentStore s) !! i = Some t →
      ∃ t' : ContentTab.t,
        tabs (contentStore s') !! i = Some t' ∧
        data_replaced_at s d new_key i t t'.

(** The key [setActiveContentQueryTabData] leaves on the active tab. *)
Definition key_after_data_update (v : variant) (t : ContentTab.t)
  : ContentComponentKeys :=
  match v with
  | Part000 => ContentTab.key t
  | ConnHeader => QueryTab
  end.

(** When [addTab] keeps the cursor of the content store in range: it does
    nothing for an id that is present, and otherwise leaves one content tab
    and the cursor where it was. *)
Definition keeps_content_idx (op : operation) (s : State) : Prop :=
  match op with
  | AddTab tab =>
      ConnectionTab.id tab ∈ ids (tabs (connectionStore s)) ∨
      idx (contentStore s) = 0
  | _ => True
  end.

(** ** Reading the trace *)

(** [s] after the external calls [es]. *)
Definition add_events (s : State) (es : list event) : State :=
  mkState (connectionStore s) (contentStore s) (timer s) (disk s)
          (trace s ++ es) (NEW_QUERY_TAB s) (shares_data s).

(** The [init_connection] calls of a trace, oldest first, each with whether
    it resolved. *)
Definition invocations (tr : list event) : list (ConnectionConfig * bool) :=
  omap (fun e => match e with
                 | Invoke config ok => Some (config, ok)
                 | _ => None
                 end) tr.

(** The tabs of [ts] whose position holds [true] in [oks], in the order of
    [ts]. *)
Definition kept_by (ts : list ConnectionTab.t) (oks : list bool)
  : list ConnectionTab.t :=
  (filter (fun p => p.2 = true) (zip ts oks)).*1.

(** Every [init_connection] call among the events [new], made after the
    trace [tr], was answered by the backend [backend]. *)
Fixpoint answers (backend : list event -> ConnectionConfig -> bool)
    (tr new : list event) : Prop :=
  match new with
  | [] => True
  | e :: new' =>
      match e with
      | Invoke config ok => ok = backend tr config
      | _ => True
      end ∧ answers backend (tr ++ [e]) new'
  end.

(** ** A persisted session and a backend for the examples *)

(** Three saved connections with the cursor on the third. *)
Definition saved_connections : ConnectionStore :=
  mkStore [example_tab "pg"; example_tab "down"; example_tab "lite"] 3.

Definition saved_content : ContentStore := mkStore [NEW_QUERY_TAB_literal] 0.

(** A codec that knows the text of [saved_connections] only. *)
Definition example_connection_codec : JSON ConnectionStore :=
  {| stringify := fun st => String.concat "," (ids (tabs st));
     parse := fun str =>
       if String.eqb str "pg,down,lite" then Some saved_connections
       else None |}.

(** A codec that knows the text of [saved_content] only. *)
Definition example_content_codec : JSON ContentStore :=
  {| stringify := fun st =>
       String.concat "," (ContentTab.label <$> tabs st);
     parse := fun str =>
       if String.eqb str "Query" then Some saved_content else None |}.

(** A backend that refuses the connection named "down". *)
Definition example_backend (history : list event)
    (config : ConnectionConfig) : bool :=
  match config with
  | JObj ((_, JStr name) :: _) => negb (String.eqb name "down")
  | _ => false
  end.

(** The state at startup with the session above on disk. *)
Definition saved_state : State :=
  mkState empty_store empty_store None
          (<[CONNECTIONS_TABS_KEY := "pg,down,lite"]>
             (<[CONTENT_TABS_KEY := "Query"]> ∅))
          [] NEW_QUERY_TAB_literal [].

(** The state at startup when the connection store on disk is not JSON. *)
Definition garbled_state : State :=
  mkState empty_store empty_store None
          (<[CONNECTIONS_TABS_KEY := "{tabs:"]>
             (<[CONTENT_TABS_KEY := "Query"]> ∅))
          [] NEW_QUERY_TAB_literal [].

(** ** Bursts of calls *)

(** Whether a call gets as far as [updateStore()]: [removeTab] always does,
    [addTab] returns before it when [find] meets a tab with the id, and the
    three operations on the active content tab never call it. *)
Definition reaches_updateStore (op : operation) (s : State) : bool :=
  match op with
  | AddTab tab =>
      match List.find
              (fun t => String.eqb (ConnectionTab.id t) (ConnectionTab.id tab))
              (tabs (connectionStore s)) with
      | Some _ => false
      | None => true
      end
  | RemoveTab _ => true
  | _ => false
  end.

(** A burst: each call is made [gap] milliseconds after the one before. *)
Fixpoint burst `{JSON ConnectionStore} `{JSON ContentStore} (v : variant)
    (calls : list (nat * operation)) : M unit :=
  match calls with
  | [] => mret tt
  | (gap, op) :: calls' =>
      elapse gap;;
      run_operation v op;;
      burst v calls'
  end.

(** Every call of the burst is a mutating one: it reaches [updateStore()]
    in the state it is made in. *)
Fixpoint mutating_burst `{JSON ConnectionStore} `{JSON ContentStore}
    (v : variant) (calls : list (nat * operation)) (s : State) : Prop :=
  match calls with
  | [] => True
  | (gap, op) :: calls' =>
      let s1 := state_of (elapse gap s) in
      reaches_updateStore op s1 = true ∧
      mutating_burst v calls' (state_of (run_operation v op s1))
  end.

(** The three external calls of one run of the debounced writer on the
    stores of [s]. *)
Definition persistence_write `{JSON ConnectionStore} `{JSON ContentStore}
    (s : State) : list event :=
  [StoreSet CONNECTIONS_TABS_KEY (stringify (connectionStore s));
   StoreSet CONTENT_TABS_KEY (stringify (contentStore s));
   StoreSave].

(** Three calls within a second of each other. *)
Definition example_burst : list (nat * operation) :=
  [(0%nat, AddTab (example_tab "pg"));
   (400%nat, AddTab (example_tab "lite"));
   (900%nat, RemoveTab "pg")].

(** ** The operations on the active content tab, as state updates *)

(** [s] once [f] has been applied to the tab under the cursor of the
    content store, [shared] telling which tabs then carry the data object
    of [NEW_QUERY_TAB]. *)
Definition update_active (f : ContentTab.t -> ContentTab.t)
    (shared : list bool) (s : State) : State :=
  mkState (connectionStore s)
          (mkStore (map_active f s) (idx (contentStore s)))
          (timer s) (disk s) (trace s) (NEW_QUERY_TAB s) shared.

(** Which tabs carry the data object of [NEW_QUERY_TAB] after
    [setActiveContentQueryTabData]. *)
Definition data_shares (s : State) : list bool :=
  match getActiveContentTab s with
  | Some _ => shares_after_data s
  | None => shares_data s
  end.

(** What setting the [error] field to [e] does to the tab at position [i]:
    the active tab gets [e] and keeps its label, key and data, every other
    tab is the same. *)
Definition error_replaced_at (s : State) (e : option TabMessage)
    (i : nat) (t t' : ContentTab.t) : Prop :=
  if decide (Z.of_nat i = idx (contentStore s)) then
    ContentTab.error t' = e ∧
    ContentTab.label t' = ContentTab.label t ∧
    ContentTab.key t' = ContentTab.key t ∧
    ContentTab.data t' = ContentTab.data t
  else t' = t.

(** The three operations that work on the active content tab. *)
Definition on_active_content_tab (op : operation) : Prop :=
  match op with
  | AddTab _ | RemoveTab _ => False
  | _ => True
  end.

(** The [data] of a content tab has the shape its [key] announces. *)
Definition shape_matches_key (t : ContentTab.t) : Prop :=
  match ContentTab.key t, ContentTab.data t with
  | QueryTab, QueryData _ => True
  | TableStructureTab, TableStructureData _ => True
  | _, _ => False
  end.

(** A content store with a query tab under the cursor. *)
Definition query_tab_state : State :=
  mkState empty_store (mkStore [NEW_QUERY_TAB_literal; example_table_tab] 0)
          None ∅ [] NEW_QUERY_TAB_literal [].

(** A connection store with two connections, the second one selected. *)
Definition two_connections_state : State :=
  mkState (mkStore [example_tab "pg"; example_tab "lite"] 2)
          (mkStore [NEW_QUERY_TAB_literal] 0) None ∅ []
          NEW_QUERY_TAB_literal [].

(** ** Hydration and persistence as functions of the disk *)

(** What [getSavedData] makes of the text [store.get] resolved to: the
    parsed value when there is a non-empty text that parses, the default
    otherwise. *)
Definition saved_value {A : Type} `{JSON A} (defaultValue : any A)
    (text : option string) : any A :=
  match text with
  | None => defaultValue
  | Some text =>
      if String.eqb text "" then defaultValue
      else match parse text with
           | Some a => of_type a
           | None => defaultValue
           end
  end.

(** The external calls that change the store on disk. *)
Definition is_write (e : event) : Prop :=
  match e with
  | StoreSet _ _ | StoreSave | StoreClear => True
  | _ => False
  end.

(** The external calls of the reconnection fold. *)
Definition is_reconnect_event (e : event) : Prop :=
  match e with
  | Invoke _ _ | ConsoleLog => True
  | _ => False
  end.

(** The number of [console.log] calls among [es]. *)
Definition logged (es : list event) : nat :=
  length (List.filter
            (fun e => match e with ConsoleLog => true | _ => false end) es).

(** The next launch of the application: fresh stores, no timer, an empty
    trace, the module-level object as its literal, and the disk as [s] left
    it. *)
Definition restart (s : State) : State :=
  mkState empty_store empty_store None (disk s) [] NEW_QUERY_TAB_literal [].

(** A backend that accepts every connection. *)
Definition accepting_backend (history : list event)
    (config : ConnectionConfig) : bool := true.

(** The session of [saved_state] in memory, with a write pending. *)
Definition unsaved_state : State :=
  mkState saved_connections saved_content (Some 1000%nat) ∅ []
          NEW_QUERY_TAB_literal [].

(** ** The header of the sidebar *)

(** The rows of the credentials table in [DbConnectionHeader]. *)
Inductive credentials_row : Type := PathRow | SocketRow | HostRow.

(** [xs.includes(x)] on strings. *)
Definition includes (xs : list string) (x : string) : bool :=
  existsb (String.eqb x) xs.

(** The three [<Match when={...}>] of the header, in source order, for
    [conn.connection.mode]. *)
Definition credentials_matches (mode : string)
  : list (bool * credentials_row) :=
  [(String.eqb mode "File", PathRow);
   (String.eqb mode "Socket", SocketRow);
   (negb (includes ["Socket"; "File"] mode), HostRow)].

(** [<Switch>] renders the first [<Match>] whose condition holds, and
    nothing when none does. *)
Definition switch {A : Type} (matches : list (bool * A)) : option A :=
  snd <$> List.find fst matches.

(** ** Properties *)

(** Unfolds the monad so that a run of an operation computes. *)
Ltac run :=
  unfold mbind, mret, M_bind, M_ret, throw, try_catch, get, modify, emit;
  simpl.

(** *** Reading a list the way JavaScript indexes an array *)

Lemma js_index_Some {T : Type} (xs : list T) (i : Z) (x : T) :
  js_index xs i = Some x ↔ 0 ≤ i ∧ xs !! Z.to_nat i = Some x.
Proof.
  unfold js_index. case_decide; [tauto |].
  split; [discriminate | tauto].
Qed.

Lemma js_index_None {T : Type} (xs : list T) (i : Z) :
  js_index xs i = None ↔ ¬ (0 ≤ i < Z.of_nat (length xs)).
Proof.
  unfold js_index. case_decide.
  - rewrite lookup_ge_None. split; intros; lia.
  - split; [intros _; lia | done].
Qed.

Lemma js_index_last {T : Type} (xs : list T) (x : T) :
  js_index (xs ++ [x]) (Z.of_nat (length (xs ++ [x])) - 1) = Some x.
Proof.
  apply js_index_Some. rewrite length_app. simpl. split; [lia |].
  replace (Z.to_nat (Z.of_nat (length xs + 1) - 1)) with (length xs) by lia.
  by rewrite list_lookup_middle.
Qed.

(** *** [find] and the ids of the tabs *)

Lemma find_same_id_Some (tab : ConnectionTab.t) (ts : list ConnectionTab.t) :
  ConnectionTab.id tab ∈ ids ts → is_Some (List.find (same_id tab) ts).
Proof.
  unfold ids. induction ts as [| t ts IH]; simpl.
  - by intros ?%elem_of_nil.
  - intros [Heq | Hin]%elem_of_cons.
    + unfold same_id at 1. rewrite Heq, String.eqb_refl. eauto.
    + destruct (same_id tab t); eauto.
Qed.

Lemma find_same_id_None (tab : ConnectionTab.t) (ts : list ConnectionTab.t) :
  ConnectionTab.id tab ∉ ids ts → List.find (same_id tab) ts = None.
Proof.
  unfold ids. induction ts as [| t ts IH]; simpl; [done |].
  intros Hnot. apply not_elem_of_cons in Hnot as [Hne Hnot].
  unfold same_id at 1.
  destruct (String.eqb_spec (ConnectionTab.id t) (ConnectionTab.id tab));
    [congruence | auto].
Qed.

(** *** What each operation does to the state *)

Lemma addTab_present (v : variant) (tab : ConnectionTab.t) (s : State) :
  ConnectionTab.id tab ∈ ids (tabs (connectionStore s)) →
  addTab v tab s = Returns tt s.
Proof.
  intros [t Ht]%find_same_id_Some. unfold addTab. run.
  unfold same_id in Ht. by rewrite Ht.
Qed.

Lemma addTab_absent (v : variant) (tab : ConnectionTab.t) (s : State) :
  ConnectionTab.id tab ∉ ids (tabs (connectionStore s)) →
  addTab v tab s =
    Returns tt
      (mkState
         (mkStore (tabs (connectionStore s) ++ [tab])
                  (Z.of_nat (length (tabs (connectionStore s) ++ [tab]))))
         (mkStore [new_query_tab v s] (idx (contentStore s)))
         (Some (wait v)) (disk s) (trace s)
         (NEW_QUERY_TAB s) [new_query_tab_shared v]).
Proof.
  intros Hnone%find_same_id_None. unfold addTab. run.
  unfold same_id in Hnone. by rewrite Hnone.
Qed.

Lemma removeTab_run (v : variant) (id : string) (s : State) :
  removeTab v id s =
    Returns tt
      (mkState
         (mkStore
            (filter (fun t => ConnectionTab.id t ≠ id)
                    (tabs (connectionStore s))) 0)
         (contentStore s) (Some (wait v)) (disk s) (trace s)
         (NEW_QUERY_TAB s) (shares_data s)).
Proof. reflexivity. Qed.

Lemma new_query_tab_value (v : variant) (s : State) :
  v = ConnHeader ∨ NEW_QUERY_TAB s = NEW_QUERY_TAB_literal →
  new_query_tab v s =
    ContentTab.mk "Query" QueryTab (QueryData (mkQueryData "" [])) None.
Proof.
  intros [-> | Hliteral]; [done |]. destruct v; [exact Hliteral | done].
Qed.

Lemma filter_keeps_all {A : Type} (P : A → Prop) `{∀ x, Decision (P x)}
    (l : list A) :
  (∀ x, x ∈ l → P x) → filter P l = l.
Proof.
  induction l as [| x l IH]; [done |]. intros Hall.
  rewrite filter_cons_True by (apply Hall; left).
  f_equal. apply IH. intros y Hy. apply Hall. by right.
Qed.

(** *** Counting the entries of an id *)

Lemma entries_with_id_app (id : string) (ts us : list ConnectionTab.t) :
  entries_with_id id (ts ++ us) =
    (entries_with_id id ts + entries_with_id id us)%nat.
Proof. unfold entries_with_id. by rewrite filter_app, length_app. Qed.

Lemma entries_with_id_absent (id : string) (ts : list ConnectionTab.t) :
  id ∉ ids ts → entries_with_id id ts = 0%nat.
Proof.
  unfold entries_with_id, ids. induction ts as [| t ts IH]; [done |].
  rewrite fmap_cons, not_elem_of_cons. intros [Hne Hnot].
  rewrite filter_cons_False by congruence. auto.
Qed.

Lemma entries_with_id_present (id : string) (ts : list ConnectionTab.t) :
  id ∈ ids ts → (1 ≤ entries_with_id id ts)%nat.
Proof.
  unfold entries_with_id, ids. induction ts as [| t ts IH].
  - by intros ?%elem_of_nil.
  - rewrite fmap_cons, elem_of_cons.
    destruct (decide (ConnectionTab.id t = id)) as [Heq | Hne].
    + intros _. rewrite filter_cons_True by done. simpl. lia.
    + intros [? | Hin]; [congruence |].
      rewrite filter_cons_False by done. auto.
Qed.

(** *** addTab *)

(** C5.  [addTab] is idempotent on the id: when a tab with the id of [tab]
    is already in [connectionStore.tabs], [addTab(tab)] changes nothing (and
    schedules nothing); and from a store holding at most one tab per id,
    [addTab(tab)] followed by [addTab(tab')] for a [tab'] with the same id
    leaves exactly one entry for that id, the second call being a no-op. *)
Theorem addTab_idempotent (v : variant) (tab : ConnectionTab.t) (s : State) :
  (ConnectionTab.id tab ∈ ids (tabs (connectionStore s)) →
   addTab v tab s = Returns tt s) ∧
  (∀ tab' : ConnectionTab.t,
     ConnectionTab.id tab' = ConnectionTab.id tab →
     (entries_with_id (ConnectionTab.id tab) (tabs (connectionStore s)) ≤ 1)%nat →
     ∃ s1 : State,
       addTab v tab s = Returns tt s1 ∧
       addTab v tab' s1 = Returns tt s1 ∧
       entries_with_id (ConnectionTab.id tab) (tabs (connectionStore s1))
         = 1%nat).
Proof.
  split; [apply addTab_present |].
  intros tab' Hid Hle.
  destruct (decide (ConnectionTab.id tab ∈ ids (tabs (connectionStore s))))
    as [Hin | Hnot].
  - exists s. split; [by apply addTab_present |]. split.
    + apply addTab_present. by rewrite Hid.
    + apply entries_with_id_present in Hin. lia.
  - eexists. split; [by apply addTab_absent |]. split.
    + apply addTab_present. simpl. rewrite Hid. unfold ids.
      rewrite fmap_app. set_solver.
    + simpl. rewrite entries_with_id_app, entries_with_id_absent by done.
      unfold entries_with_id. by rewrite filter_cons_True.
Qed.

Lemma addTab_idempotent_witness :
  (entries_with_id "pg" (tabs (connectionStore initial_state)) ≤ 1)%nat ∧
  ∃ s1 : State,
    addTab Part000 (example_tab "pg") initial_state = Returns tt s1 ∧
    addTab Part000 (example_tab "pg") s1 = Returns tt s1 ∧
    entries_with_id "pg" (tabs (connectionStore s1)) = 1%nat.
Proof.
  assert (Hle : (entries_with_id "pg"
                   (tabs (connectionStore initial_state)) ≤ 1)%nat)
    by (vm_compute; lia).
  split; [exact Hle |].
  exact (proj2 (addTab_idempotent Part000 (example_tab "pg") initial_state)
           (example_tab "pg") eq_refl Hle).
Defined.

(** C6.  What the code does.  When no tab of [connectionStore.tabs] has
    the id of [tab], [addTab(tab)] appends [tab] and sets
    [connectionStore.idx] to the new length, so that
    [getActiveConnection()] is [tab] (the cursor is 1 on a store whose tabs
    were empty), and it resets [contentStore.tabs] to a single tab.  In
    db-connection-header.tsx that tab is a new Query tab with an empty query
    and no results.  In part_000 it is the shared object [NEW_QUERY_TAB]
    itself, with whatever it holds by now: an empty Query tab only as long
    as nothing has written into that object. *)
Theorem addTab_installs_shared_tab (v : variant) (tab : ConnectionTab.t)
    (s : State) :
  ConnectionTab.id tab ∉ ids (tabs (connectionStore s)) →
  ∃ s' : State,
    addTab v tab s = Returns tt s' ∧
    tabs (connectionStore s') = tabs (connectionStore s) ++ [tab] ∧
    tabs (contentStore s') =
      [match v with
       | Part000 => NEW_QUERY_TAB s
       | ConnHeader =>
           ContentTab.mk "Query" QueryTab (QueryData (mkQueryData "" []))
                         None
       end] ∧
    (v = ConnHeader ∨ NEW_QUERY_TAB s = NEW_QUERY_TAB_literal →
     tabs (contentStore s') =
       [ContentTab.mk "Query" QueryTab (QueryData (mkQueryData "" []))
                      None]) ∧
    idx (connectionStore s') =
      Z.of_nat (length (tabs (connectionStore s'))) ∧
    getActiveConnection s' = Some tab ∧
    (tabs (connectionStore s) = [] → idx (connectionStore s') = 1).
Proof.
  intros Hnot. eexists. split; [by apply addTab_absent |].
  simpl. split; [reflexivity |]. split; [by destruct v |].
  split; [intros Hfresh; by rewrite new_query_tab_value |].
  split; [reflexivity |]. split.
  - unfold getActiveConnection. simpl. apply js_index_last.
  - by intros ->.
Qed.

(** The failing input of C6: after [addTab] of a first connection and a
    write of the query text through the exported [setContentStore],
    [addTab] of a second connection installs a tab that holds that text. *)
Lemma addTab_installs_shared_tab_witness :
  (ConnectionTab.id (example_tab "lite")
     ∉ ids (tabs (connectionStore written_state))) ∧
  ∃ s' : State,
    addTab Part000 (example_tab "lite") written_state = Returns tt s' ∧
    tabs (connectionStore s') = [example_tab "pg"; example_tab "lite"] ∧
    tabs (contentStore s') =
      [ContentTab.mk "Query" QueryTab
         (QueryData (mkQueryData "select 1" [])) None] ∧
    getActiveConnection s' = Some (example_tab "lite").
Proof.
  assert (Hnot : ConnectionTab.id (example_tab "lite")
                   ∉ ids (tabs (connectionStore written_state))).
  { intros Hin. apply list_elem_of_singleton in Hin. discriminate Hin. }
  split; [exact Hnot |].
  destruct (addTab_installs_shared_tab Part000 (example_tab "lite")
              written_state Hnot)
    as (s' & Hrun & Htabs & Hcontent & _ & _ & Hactive & _).
  exists s'. split; [exact Hrun |]. split; [exact Htabs |].
  split; [exact Hcontent | exact Hactive].
Defined.

(** *** removeTab *)

(** C7.  For every id, [removeTab(id)] keeps exactly the tabs with another
    id, in their order (so it keeps all of them when the id is absent), and
    always sets [connectionStore.idx] to 0; afterwards
    [getActiveConnection()] is [undefined]. *)
Theorem removeTab_resets_cursor (v : variant) (id : string) (s : State) :
  ∃ s' : State,
    removeTab v id s = Returns tt s' ∧
    tabs (connectionStore s') =
      filter (fun t => ConnectionTab.id t ≠ id) (tabs (connectionStore s)) ∧
    (id ∉ ids (tabs (connectionStore s)) →
     tabs (connectionStore s') = tabs (connectionStore s)) ∧
    idx (connectionStore s') = 0 ∧
    getActiveConnection s' = None.
Proof.
  eexists. split; [apply removeTab_run |]. simpl.
  split; [reflexivity |]. split; [| split; [reflexivity |]].
  - intros Hnot. apply filter_keeps_all.
    intros t Ht Heq. apply Hnot. rewrite <- Heq. unfold ids.
    by apply list_elem_of_fmap_2.
  - unfold getActiveConnection. simpl. apply js_index_None. lia.
Qed.

Lemma removeTab_resets_cursor_witness :
  ("pg" ∉ ids (tabs (connectionStore initial_state))) ∧
  ∃ s' : State,
    removeTab Part000 "pg" initial_state = Returns tt s' ∧
    tabs (connectionStore s') = tabs (connectionStore initial_state) ∧
    idx (connectionStore s') = 0 ∧
    getActiveConnection s' = None.
Proof.
  assert (Hnot : "pg" ∉ ids (tabs (connectionStore initial_state)))
    by (simpl; apply not_elem_of_nil).
  split; [exact Hnot |].
  destruct (removeTab_resets_cursor Part000 "pg" initial_state)
    as (s' & Hrun & _ & Hsame & Hidx & Hactive).
  exists s'. repeat split;
    [exact Hrun | exact (Hsame Hnot) | exact Hidx | exact Hactive].
Defined.

(** *** The operations on the active content tab *)

Lemma getActiveContentTab_None (s : State) :
  getActiveContentTab s = None ↔
  ¬ (0 ≤ idx (contentStore s) < Z.of_nat (length (tabs (contentStore s)))).
Proof. apply js_index_None. Qed.

Lemma getActiveContentTab_Some (s : State) :
  is_Some (getActiveContentTab s) ↔
  0 ≤ idx (contentStore s) < Z.of_nat (length (tabs (contentStore s))).
Proof.
  rewrite <- not_eq_None_Some, getActiveContentTab_None.
  split; [| tauto]. intros Hnn.
  destruct (decide (0 ≤ idx (contentStore s)
                    < Z.of_nat (length (tabs (contentStore s))))); tauto.
Qed.

Lemma set_active_absent (f : ContentTab.t -> ContentTab.t)
    (shared : State -> list bool) (s : State) :
  getActiveContentTab s = None →
  (s' ← get;
   match getActiveContentTab s' with
   | None => mret tt
   | Some _ => setContentStore_tabs (map_active f s') (shared s')
   end) s = Returns tt s.
Proof. intros Hnone. run. by rewrite Hnone. Qed.

Lemma set_active_present (f : ContentTab.t -> ContentTab.t)
    (shared : State -> list bool) (s : State) :
  is_Some (getActiveContentTab s) →
  (s' ← get;
   match getActiveContentTab s' with
   | None => mret tt
   | Some _ => setContentStore_tabs (map_active f s') (shared s')
   end) s =
    Returns tt
      (mkState (connectionStore s)
               (mkStore (map_active f s) (idx (contentStore s)))
               (timer s) (disk s) (trace s)
               (NEW_QUERY_TAB s) (shared s)).
Proof. intros [t Ht]. run. by rewrite Ht. Qed.

Lemma map_active_length (f : ContentTab.t -> ContentTab.t) (s : State) :
  length (map_active f s) = length (tabs (contentStore s)).
Proof. unfold map_active. apply length_imap. Qed.

Lemma map_active_lookup (f : ContentTab.t -> ContentTab.t) (s : State)
    (i : nat) (t : ContentTab.t) :
  tabs (contentStore s) !! i = Some t →
  map_active f s !! i =
    Some (if decide (Z.of_nat i = idx (contentStore s)) then f t else t).
Proof.
  intros Ht. unfold map_active. rewrite list_lookup_imap, Ht. simpl.
  f_equal. case_decide as Hi.
  - by rewrite (proj2 (Z.eqb_eq _ _) Hi).
  - by rewrite (proj2 (Z.eqb_neq _ _) Hi).
Qed.

(** C8.  When [contentStore.idx] is out of the range of [contentStore.tabs],
    [getActiveContentTab()] is [undefined], and each of
    [setActiveContentQueryTabData], [setActiveContentQueryTabMessage] and
    [resetActiveContentQueryTabMessage] returns normally and leaves the
    whole state, both stores included, as it was. *)
Theorem absent_active_tab_is_noop (v : variant) (s : State)
    (data : QueryContentTabData) (type : MessageType.t) (message : string) :
  ¬ (0 ≤ idx (contentStore s) < Z.of_nat (length (tabs (contentStore s)))) →
  getActiveContentTab s = None ∧
  setActiveContentQueryTabData v data s = Returns tt s ∧
  setActiveContentQueryTabMessage type message s = Returns tt s ∧
  resetActiveContentQueryTabMessage s = Returns tt s.
Proof.
  intros Hnone%getActiveContentTab_None. split; [done |].
  unfold setActiveContentQueryTabData, setActiveContentQueryTabMessage,
    resetActiveContentQueryTabMessage.
  repeat split; by apply set_active_absent.
Qed.

Lemma absent_active_tab_is_noop_witness :
  ¬ (0 ≤ idx (contentStore initial_state)
     < Z.of_nat (length (tabs (contentStore initial_state)))) ∧
  setActiveContentQueryTabData ConnHeader example_query_data initial_state
    = Returns tt initial_state ∧
  setActiveContentQueryTabMessage MessageType.error "syntax error"
    initial_state = Returns tt initial_state ∧
  resetActiveContentQueryTabMessage initial_state = Returns tt initial_state.
Proof.
  assert (Hout : ¬ (0 ≤ idx (contentStore initial_state)
      < Z.of_nat (length (tabs (contentStore initial_state)))))
    by (simpl; lia).
  split; [exact Hout |].
  exact (proj2 (absent_active_tab_is_noop ConnHeader initial_state
                  example_query_data MessageType.error "syntax error" Hout)).
Defined.

(** C2, as amended.  With an active tab at [contentStore.idx],
    [setActiveContentQueryTabData(d)] replaces the [data] of that tab and
    keeps its [label] and [error]; its [key] is kept by part_000 and set to
    [QueryTab] by db-connection-header.tsx, so it is kept there as well when
    the active tab is a Query tab.  Every tab at another index, and
    everything else in the state, is unchanged. *)
Theorem setActiveContentQueryTabData_frame (v : variant) (s : State)
    (d : QueryContentTabData) :
  data_update v s d (key_after_data_update v) ∧
  (∀ t : ContentTab.t,
     getActiveContentTab s = Some t →
     v = Part000 ∨ ContentTab.key t = QueryTab →
     key_after_data_update v t = ContentTab.key t) ∧
  connectionStore (state_of (setActiveContentQueryTabData v d s))
    = connectionStore s ∧
  idx (contentStore (state_of (setActiveContentQueryTabData v d s)))
    = idx (contentStore s).
Proof.
  split; [| split; [| split]].
  - intros Hsome. eexists. split.
    { unfold setActiveContentQueryTabData. by apply set_active_present. }
    simpl. split; [apply map_active_length |].
    intros i t Ht. eexists. split; [by apply map_active_lookup |].
    unfold data_replaced_at. case_decide; [| done].
    by destruct v.
  - intros t _ [-> | Hkey]; [done |]. by destruct v.
  - unfold setActiveContentQueryTabData. run.
    by destruct (getActiveContentTab s).
  - unfold setActiveContentQueryTabData. run.
    by destruct (getActiveContentTab s).
Qed.

Lemma setActiveContentQueryTabData_frame_witness :
  is_Some (getActiveContentTab table_tab_state) ∧
  ∃ s' : State,
    setActiveContentQueryTabData Part000 example_query_data table_tab_state
      = Returns tt s' ∧
    length (tabs (contentStore s')) = 2%nat ∧
    ∀ (i : nat) (t : ContentTab.t),
      tabs (contentStore table_tab_state) !! i = Some t →
      ∃ t' : ContentTab.t,
        tabs (contentStore s') !! i = Some t' ∧
        data_replaced_at table_tab_state example_query_data
          (key_after_data_update Part000) i t t'.
Proof.
  assert (Hsome : is_Some (getActiveContentTab table_tab_state))
    by (eexists; reflexivity).
  split; [exact Hsome |].
  exact (proj1 (setActiveContentQueryTabData_frame Part000 table_tab_state
                  example_query_data) Hsome).
Defined.

(** C2, as claimed, fails on db-connection-header.tsx: with a
    table-structure tab under the cursor the [key] of the active tab is not
    preserved. *)
Lemma setActiveContentQueryTabData_changes_key :
  ¬ data_update ConnHeader table_tab_state example_query_data ContentTab.key.
Proof.
  intros Hclaim.
  destruct Hclaim as (s' & Hrun & _ & Htabs); [eexists; reflexivity |].
  destruct (Htabs 0%nat example_table_tab eq_refl) as (t' & Ht' & Hat).
  injection Hrun as <-. simpl in Ht'. injection Ht' as <-.
  unfold data_replaced_at in Hat. simpl in Hat.
  destruct Hat as (_ & _ & Hkey & _). discriminate Hkey.
Qed.

(** *** The cursor of the content store *)

Lemma set_active_in_range (f : ContentTab.t -> ContentTab.t)
    (shared : State -> list bool) (s : State) :
  content_idx_in_range s →
  ∃ s' : State,
    (s' ← get;
     match getActiveContentTab s' with
     | None => mret tt
     | Some _ => setContentStore_tabs (map_active f s') (shared s')
     end) s = Returns tt s' ∧
    content_idx_in_range s'.
Proof.
  intros Hinv. destruct (getActiveContentTab s) as [t |] eqn:Hactive.
  - eexists. split; [apply set_active_present; by rewrite Hactive |].
    unfold content_idx_in_range. simpl. rewrite map_active_length.
    intros _. apply getActiveContentTab_Some. by rewrite Hactive.
  - exists s. split; [by apply set_active_absent | done].
Qed.

(** C3, as amended.  [removeTab], [setActiveContentQueryTabData],
    [setActiveContentQueryTabMessage] and
    [resetActiveContentQueryTabMessage] return normally and keep
    [contentStore.idx] within the range of a non-empty [contentStore.tabs];
    [addTab] does so when the id is already present (it changes nothing) or
    when [contentStore.idx] is 0: it replaces [contentStore.tabs] by a
    single tab and leaves [contentStore.idx] as it was. *)
Theorem operations_keep_content_idx (v : variant) (op : operation)
    (s : State) :
  keeps_content_idx op s →
  content_idx_in_range s →
  ∃ s' : State,
    run_operation v op s = Returns tt s' ∧ content_idx_in_range s'.
Proof.
  intros Hop Hinv. destruct op as [tab | id | data | type message |]; simpl.
  - destruct (decide (ConnectionTab.id tab ∈ ids (tabs (connectionStore s))))
      as [Hin | Hnot].
    + exists s. split; [by apply addTab_present | done].
    + destruct Hop as [? | Hzero]; [done |].
      eexists. split; [by apply addTab_absent |].
      unfold content_idx_in_range. simpl. lia.
  - eexists. split; [apply removeTab_run | done].
  - by apply set_active_in_range.
  - by apply set_active_in_range.
  - by apply set_active_in_range.
Qed.

Lemma operations_keep_content_idx_witness :
  keeps_content_idx (AddTab (example_tab "pg")) table_tab_state ∧
  content_idx_in_range table_tab_state ∧
  ∃ s' : State,
    run_operation Part000 (AddTab (example_tab "pg")) table_tab_state
      = Returns tt s' ∧
    content_idx_in_range s'.
Proof.
  assert (Hop : keeps_content_idx (AddTab (example_tab "pg")) table_tab_state)
    by (right; reflexivity).
  assert (Hinv : content_idx_in_range table_tab_state)
    by (intros _; simpl; lia).
  split; [exact Hop |]. split; [exact Hinv |].
  exact (operations_keep_content_idx Part000 (AddTab (example_tab "pg"))
           table_tab_state Hop Hinv).
Defined.

(** C3, as claimed, fails for [addTab]: with two content tabs and the cursor
    on the second, adding a connection leaves one content tab and the cursor
    at 1. *)
Lemma addTab_leaves_content_idx_dangling :
  ¬ preserves_content_idx Part000 (AddTab (example_tab "pg")) two_tabs_state.
Proof.
  intros Hclaim.
  assert (Hinv : content_idx_in_range two_tabs_state)
    by (intros _; simpl; lia).
  specialize (Hclaim Hinv).
  unfold content_idx_in_range in Hclaim. simpl in Hclaim.
  specialize (Hclaim ltac:(discriminate)). lia.
Qed.

(** The exact condition for [addTab]: after a call that appends, the cursor
    of the content store is in range only if it was 0. *)
Lemma addTab_content_idx_iff (v : variant) (tab : ConnectionTab.t)
    (s : State) :
  ConnectionTab.id tab ∉ ids (tabs (connectionStore s)) →
  content_idx_in_range (state_of (addTab v tab s)) ↔
  idx (contentStore s) = 0.
Proof.
  intros Hnot. rewrite addTab_absent by done.
  unfold content_idx_in_range. simpl. split.
  - intros Hin. specialize (Hin ltac:(discriminate)). lia.
  - intros -> _. lia.
Qed.

(** *** Hydration *)

Lemma add_events_add_events (s : State) (es1 es2 : list event) :
  add_events (add_events s es1) es2 = add_events s (es1 ++ es2).
Proof. unfold add_events. simpl. by rewrite <- app_assoc. Qed.

Lemma add_events_nil (s : State) : add_events s [] = s.
Proof. destruct s. unfold add_events. simpl. by rewrite app_nil_r. Qed.

Lemma kept_by_cons_true (t : ConnectionTab.t) (ts : list ConnectionTab.t)
    (oks : list bool) :
  kept_by (t :: ts) (true :: oks) = t :: kept_by ts oks.
Proof.
  unfold kept_by.
  change (zip (t :: ts) (true :: oks)) with ((t, true) :: zip ts oks).
  by rewrite filter_cons_True.
Qed.

Lemma kept_by_cons_false (t : ConnectionTab.t) (ts : list ConnectionTab.t)
    (oks : list bool) :
  kept_by (t :: ts) (false :: oks) = kept_by ts oks.
Proof.
  unfold kept_by.
  change (zip (t :: ts) (false :: oks)) with ((t, false) :: zip ts oks).
  by rewrite filter_cons_False.
Qed.

Lemma kept_by_length (ts : list ConnectionTab.t) (oks : list bool) :
  (length (kept_by ts oks) ≤ length ts)%nat.
Proof.
  unfold kept_by. rewrite length_fmap.
  etrans; [apply length_filter |]. rewrite length_zip. lia.
Qed.

Lemma kept_by_sublist (ts : list ConnectionTab.t) (oks : list bool) :
  sublist (kept_by ts oks) ts.
Proof.
  revert oks. induction ts as [| t ts IH]; intros [| [] oks];
    try (unfold kept_by; simpl; apply sublist_nil_l).
  - rewrite kept_by_cons_true. by apply sublist_skip.
  - rewrite kept_by_cons_false. by apply sublist_cons.
Qed.

Section Hydration.

Context `{JSON ConnectionStore} `{JSON ContentStore}.
Variable init_connection : list event -> ConnectionConfig -> bool.

(** What [getSavedData] resolves to. *)
Lemma getSavedData_absent {A : Type} `{JSON A} (key : string) (s : State) :
  falsy (disk s !! key) = true ∨
  (∃ str : string, disk s !! key = Some str ∧ parse (A := A) str = None) →
  getSavedData_default (A := A) key s
    = Returns empty_array (add_events s [StoreGet key]).
Proof.
  intros Hcase. unfold getSavedData_default, getSavedData, store_get. run.
  destruct (falsy (disk s !! key)) eqn:Hfalsy; [done |].
  destruct Hcase as [? | (str & Hget & Hparse)]; [done |].
  rewrite Hget. simpl. unfold JSON_parse. by rewrite Hparse.
Qed.

Lemma getSavedData_parsed {A : Type} `{JSON A} (key str : string) (a : A)
    (s : State) :
  disk s !! key = Some str → str ≠ "" → parse str = Some a →
  getSavedData_default key s
    = Returns (of_type a) (add_events s [StoreGet key]).
Proof.
  intros Hget Hne Hparse.
  unfold getSavedData_default, getSavedData, store_get. run.
  rewrite Hget. simpl.
  destruct (String.eqb_spec str ""); [done |].
  unfold JSON_parse. by rewrite Hparse.
Qed.

Lemma getSavedData_returns {A : Type} `{JSON A} (key : string) (s : State) :
  ∃ r : any A,
    getSavedData_default key s = Returns r (add_events s [StoreGet key]).
Proof.
  destruct (disk s !! key) as [str |] eqn:Hget.
  - destruct (decide (str = "")) as [-> | Hne].
    + exists empty_array. apply getSavedData_absent. left. by rewrite Hget.
    + destruct (parse (A := A) str) as [a |] eqn:Hparse.
      * exists (of_type a). by eapply getSavedData_parsed.
      * exists empty_array. apply getSavedData_absent. right. eauto.
  - exists empty_array. apply getSavedData_absent. left. by rewrite Hget.
Qed.

(** One step of the fold: the call is made, and the tab is kept when it
    resolves. *)
Lemma reconnect_run (res : list ConnectionTab.t) (conn : ConnectionTab.t)
    (s : State) :
  reconnect init_connection res conn s =
    if init_connection (trace s) (ConnectionTab.connection conn) then
      Returns (res ++ [conn])
        (add_events s [Invoke (ConnectionTab.connection conn) true])
    else
      Returns res
        (add_events s
           [Invoke (ConnectionTab.connection conn) false; ConsoleLog]).
Proof.
  unfold reconnect, invoke_init_connection, console_log, add_events. run.
  destruct (init_connection (trace s) (ConnectionTab.connection conn));
    simpl; [done |].
  by rewrite <- app_assoc.
Qed.

(** The fold makes one call per saved tab, in the order of the array, and
    keeps the tabs whose call resolved. *)
Lemma reduce_reconnect (ts : list ConnectionTab.t) :
  ∀ (res : list ConnectionTab.t) (s : State),
  ∃ new : list event,
    reduce_async (reconnect init_connection) ts res s
      = Returns (res ++ kept_by ts (invocations new).*2) (add_events s new) ∧
    (invocations new).*1 = ConnectionTab.connection <$> ts ∧
    answers init_connection (trace s) new.
Proof.
  induction ts as [| t ts IH]; intros res s.
  - exists []. simpl. run. by rewrite add_events_nil, app_nil_r.
  - simpl. unfold mbind, M_bind at 1. rewrite reconnect_run.
    destruct (init_connection (trace s) (ConnectionTab.connection t))
      eqn:Hanswer.
    + destruct (IH (res ++ [t])
                  (add_events s [Invoke (ConnectionTab.connection t) true]))
        as (new & Hrun & Hcalls & Hanswers).
      exists (Invoke (ConnectionTab.connection t) true :: new).
      rewrite Hrun, add_events_add_events, <- app_assoc.
      change (invocations (Invoke (ConnectionTab.connection t) true :: new))
        with ((ConnectionTab.connection t, true) :: invocations new).
      rewrite !fmap_cons, kept_by_cons_true, Hcalls. simpl. done.
    + destruct (IH res
                  (add_events s
                     [Invoke (ConnectionTab.connection t) false; ConsoleLog]))
        as (new & Hrun & Hcalls & Hanswers).
      exists (Invoke (ConnectionTab.connection t) false :: ConsoleLog :: new).
      rewrite Hrun, add_events_add_events.
      change (invocations
                (Invoke (ConnectionTab.connection t) false :: ConsoleLog
                 :: new))
        with ((ConnectionTab.connection t, false) :: invocations new).
      rewrite !fmap_cons, kept_by_cons_false, Hcalls. simpl.
      simpl in Hanswers. rewrite <- app_assoc. done.
Qed.

(** Hydration from a saved connection store. *)
Lemma onMount_parsed (s : State) (str : string) (saved : ConnectionStore) :
  disk s !! CONNECTIONS_TABS_KEY = Some str → str ≠ "" →
  parse str = Some saved →
  ∃ (new : list event) (content : any ContentStore),
    (invocations new).*1 = ConnectionTab.connection <$> tabs saved ∧
    answers init_connection (trace s ++ [StoreGet CONNECTIONS_TABS_KEY]) new ∧
    onMount init_connection s =
      Returns tt
        (mkState
           (mkStore (kept_by (tabs saved) (invocations new).*2) (idx saved))
           (match content with
            | of_type c => c
            | empty_array => contentStore s
            end)
           (timer s) (disk s)
           (trace s ++ [StoreGet CONNECTIONS_TABS_KEY] ++ new
                   ++ [StoreGet CONTENT_TABS_KEY])
           (NEW_QUERY_TAB s)
           (match content with
            | of_type _ => []
            | empty_array => shares_data s
            end)).
Proof.
  intros Hget Hne Hparse. unfold onMount.
  destruct (reduce_reconnect (tabs saved) []
              (add_events s [StoreGet CONNECTIONS_TABS_KEY]))
    as (new & Hfold & Hcalls & Hanswers).
  set (s2 := mkState
               (mkStore (kept_by (tabs saved) (invocations new).*2)
                        (idx saved))
               (contentStore s) (timer s) (disk s)
               (trace s ++ [StoreGet CONNECTIONS_TABS_KEY] ++ new)
               (NEW_QUERY_TAB s) (shares_data s)).
  destruct (getSavedData_returns (A := ContentStore) CONTENT_TABS_KEY s2)
    as (content & Hcontent).
  exists new, content. split; [done |]. split; [done |].
  unfold mbind, M_bind.
  rewrite (getSavedData_parsed _ _ _ _ Hget Hne Hparse).
  unfold tabs_reduce. rewrite Hfold. simpl.
  unfold setConnectionStore_spread, modify. simpl.
  rewrite <- app_assoc. fold s2. rewrite Hcontent.
  unfold setContentStore_merge, modify, add_events.
  destruct content; simpl; by rewrite <- !app_assoc.
Qed.

End Hydration.

Lemma answers_stateless (backend : list event -> ConnectionConfig -> bool)
    (ok : ConnectionConfig -> bool) (new : list event) :
  (∀ tr config, backend tr config = ok config) →
  ∀ tr : list event,
    answers backend tr new →
    (invocations new).*2 = ok <$> (invocations new).*1.
Proof.
  intros Hok. induction new as [| e new IH]; intros tr; [done |].
  simpl. intros [He Hnew]. specialize (IH _ Hnew).
  destruct e; try exact IH.
  change (invocations (Invoke config ok0 :: new))
    with ((config, ok0) :: invocations new).
  rewrite !fmap_cons, IH. simpl. by rewrite He, Hok.
Qed.

Lemma kept_by_fmap (ok : ConnectionTab.t -> bool)
    (ts : list ConnectionTab.t) :
  kept_by ts (ok <$> ts) = filter (fun t => ok t = true) ts.
Proof.
  induction ts as [| t ts IH]; [done |].
  rewrite fmap_cons. destruct (ok t) eqn:Hok.
  - by rewrite kept_by_cons_true, filter_cons_True, IH.
  - rewrite kept_by_cons_false, filter_cons_False, IH; [done |].
    by rewrite Hok.
Qed.

(** C4.  With a saved connection store on disk, hydration calls
    [init_connection] once per saved tab, one call after the other in save
    order, and the restored [tabs] are the saved tabs whose call resolved,
    in save order (a subsequence of the saved tabs; for a backend whose
    answer depends on the configuration alone, the saved tabs it accepts).
    In particular, of three saved tabs whose second call alone fails, the
    first and the third are restored, in that order. *)
Theorem hydration_keeps_successes `{JSON ConnectionStore} `{JSON ContentStore}
    (init_connection : list event -> ConnectionConfig -> bool)
    (s : State) (str : string) (saved : ConnectionStore) :
  disk s !! CONNECTIONS_TABS_KEY = Some str → str ≠ "" →
  parse str = Some saved →
  ∃ (s' : State) (new : list event),
    onMount init_connection s = Returns tt s' ∧
    trace s' = trace s ++ [StoreGet CONNECTIONS_TABS_KEY] ++ new
                       ++ [StoreGet CONTENT_TABS_KEY] ∧
    answers init_connection (trace s ++ [StoreGet CONNECTIONS_TABS_KEY]) new ∧
    (invocations new).*1 = ConnectionTab.connection <$> tabs saved ∧
    tabs (connectionStore s') = kept_by (tabs saved) (invocations new).*2 ∧
    sublist (tabs (connectionStore s')) (tabs saved) ∧
    (∀ ok : ConnectionConfig -> bool,
       (∀ tr config, init_connection tr config = ok config) →
       tabs (connectionStore s') =
         filter (fun t => ok (ConnectionTab.connection t) = true)
                (tabs saved)) ∧
    (∀ t1 t2 t3 : ConnectionTab.t,
       tabs saved = [t1; t2; t3] →
       (invocations new).*2 = [true; false; true] →
       tabs (connectionStore s') = [t1; t3]).
Proof.
  intros Hget Hne Hparse.
  destruct (onMount_parsed init_connection s str saved Hget Hne Hparse)
    as (new & content & Hcalls & Hanswers & Hrun).
  eexists; exists new. split; [exact Hrun |]. simpl.
  split; [done |]. split; [done |]. split; [done |]. split; [done |].
  split; [apply kept_by_sublist |]. split.
  - intros ok Hok.
    rewrite (answers_stateless _ ok new Hok _ Hanswers), Hcalls.
    rewrite <- list_fmap_compose.
    apply (kept_by_fmap (ok ∘ ConnectionTab.connection)).
  - intros t1 t2 t3 -> ->.
    by rewrite kept_by_cons_true, kept_by_cons_false, kept_by_cons_true.
Qed.

Lemma hydration_keeps_successes_witness :
  disk saved_state !! CONNECTIONS_TABS_KEY = Some "pg,down,lite" ∧
  "pg,down,lite" ≠ "" ∧
  @parse _ example_connection_codec "pg,down,lite" = Some saved_connections ∧
  ∃ s' : State,
    @onMount example_connection_codec example_content_codec example_backend
      saved_state = Returns tt s' ∧
    tabs (connectionStore s') = [example_tab "pg"; example_tab "lite"].
Proof.
  assert (Hget : disk saved_state !! CONNECTIONS_TABS_KEY
                 = Some "pg,down,lite") by reflexivity.
  assert (Hne : "pg,down,lite" ≠ "") by discriminate.
  assert (Hparse : @parse _ example_connection_codec "pg,down,lite"
                   = Some saved_connections) by reflexivity.
  split; [exact Hget |]. split; [exact Hne |]. split; [exact Hparse |].
  destruct (@hydration_keeps_successes example_connection_codec
              example_content_codec example_backend saved_state
              "pg,down,lite" saved_connections Hget Hne Hparse)
    as (s' & new & Hrun & _ & _ & _ & _ & _ & Hfilter & _).
  exists s'. split; [exact Hrun |].
  rewrite (Hfilter (example_backend []) (fun _ _ => eq_refl)).
  reflexivity.
Defined.

(** C10.  After hydration from a saved connection store,
    [connectionStore.idx] is the saved [idx] whatever number of saved tabs
    was dropped: the cursor is not clamped, so when the saved [idx] exceeds
    the number of restored tabs [getActiveConnection()] is [undefined]. *)
Theorem hydration_keeps_saved_idx `{JSON ConnectionStore} `{JSON ContentStore}
    (init_connection : list event -> ConnectionConfig -> bool)
    (s : State) (str : string) (saved : ConnectionStore) :
  disk s !! CONNECTIONS_TABS_KEY = Some str → str ≠ "" →
  parse str = Some saved →
  ∃ s' : State,
    onMount init_connection s = Returns tt s' ∧
    idx (connectionStore s') = idx saved ∧
    (length (tabs (connectionStore s')) ≤ length (tabs saved))%nat ∧
    (Z.of_nat (length (tabs (connectionStore s'))) < idx saved →
     getActiveConnection s' = None).
Proof.
  intros Hget Hne Hparse.
  destruct (onMount_parsed init_connection s str saved Hget Hne Hparse)
    as (new & content & _ & _ & Hrun).
  eexists. split; [exact Hrun |]. simpl.
  split; [done |]. split; [apply kept_by_length |].
  intros Hlt. unfold getActiveConnection. simpl.
  apply js_index_None. lia.
Qed.

Lemma hydration_keeps_saved_idx_witness :
  disk saved_state !! CONNECTIONS_TABS_KEY = Some "pg,down,lite" ∧
  "pg,down,lite" ≠ "" ∧
  @parse _ example_connection_codec "pg,down,lite" = Some saved_connections ∧
  ∃ s' : State,
    @onMount example_connection_codec example_content_codec example_backend
      saved_state = Returns tt s' ∧
    idx (connectionStore s') = 3 ∧
    length (tabs (connectionStore s')) = 2%nat ∧
    getActiveConnection s' = None.
Proof.
  assert (Hget : disk saved_state !! CONNECTIONS_TABS_KEY
                 = Some "pg,down,lite") by reflexivity.
  assert (Hne : "pg,down,lite" ≠ "") by discriminate.
  assert (Hparse : @parse _ example_connection_codec "pg,down,lite"
                   = Some saved_connections) by reflexivity.
  split; [exact Hget |]. split; [exact Hne |]. split; [exact Hparse |].
  destruct (@hydration_keeps_saved_idx example_connection_codec
              example_content_codec example_backend saved_state
              "pg,down,lite" saved_connections Hget Hne Hparse)
    as (s' & Hrun & Hidx & _ & Hnone).
  assert (Hlen : length (tabs (connectionStore s')) = 2%nat).
  { assert (Hs : state_of (@onMount example_connection_codec
                             example_content_codec example_backend
                             saved_state) = s') by (by rewrite Hrun).
    rewrite <- Hs. vm_compute. reflexivity. }
  exists s'. split; [exact Hrun |]. split; [exact Hidx |].
  split; [exact Hlen |].
  apply Hnone. rewrite Hlen. simpl. lia.
Defined.

(** C1.  What the code does when the saved connection store is absent,
    empty or not JSON: [getSavedData] resolves to its default [[]], not to
    [{ tabs: [], idx: 0 }], and the callback of [onMount] stops with a
    TypeError at [conn_tabs.tabs.reduce]: after the one read of
    ["_conn_tabs"] nothing else happens, the content store on disk is not
    read and neither store is set. *)
Theorem hydration_without_saved_connections
    `{JSON ConnectionStore} `{JSON ContentStore}
    (init_connection : list event -> ConnectionConfig -> bool) (s : State) :
  falsy (disk s !! CONNECTIONS_TABS_KEY) = true ∨
  (∃ str : string,
     disk s !! CONNECTIONS_TABS_KEY = Some str ∧
     parse (A := ConnectionStore) str = None) →
  getSavedData_default (A := ConnectionStore) CONNECTIONS_TABS_KEY s
    = Returns empty_array (add_events s [StoreGet CONNECTIONS_TABS_KEY]) ∧
  onMount init_connection s
    = Throws TypeError (add_events s [StoreGet CONNECTIONS_TABS_KEY]).
Proof.
  intros Hcase.
  pose proof (getSavedData_absent (A := ConnectionStore)
                CONNECTIONS_TABS_KEY s Hcase) as Hdefault.
  split; [exact Hdefault |].
  unfold onMount, mbind, M_bind. by rewrite Hdefault.
Qed.

Lemma hydration_without_saved_connections_witness :
  falsy (disk initial_state !! CONNECTIONS_TABS_KEY) = true ∧
  @onMount example_connection_codec example_content_codec example_backend
    initial_state
    = Throws TypeError
        (add_events initial_state [StoreGet CONNECTIONS_TABS_KEY]).
Proof.
  assert (Hfalsy : falsy (disk initial_state !! CONNECTIONS_TABS_KEY) = true)
    by reflexivity.
  split; [exact Hfalsy |].
  exact (proj2 (@hydration_without_saved_connections
                  example_connection_codec example_content_codec
                  example_backend initial_state (or_introl Hfalsy))).
Defined.

(** The same on a connection store that is on disk but is not JSON. *)
Example hydration_of_garbled_connections :
  @onMount example_connection_codec example_content_codec example_backend
    garbled_state
    = Throws TypeError
        (add_events garbled_state [StoreGet CONNECTIONS_TABS_KEY]).
Proof. reflexivity. Qed.

(** The content store is treated alike, with another outcome: when its text
    is absent, empty or not JSON, [getSavedData] resolves to [[]] as well,
    and merging [[]] into [contentStore] sets no key, so hydration returns
    and the content store stays what it was. *)
Lemma hydration_without_saved_content
    `{JSON ConnectionStore} `{JSON ContentStore}
    (init_connection : list event -> ConnectionConfig -> bool)
    (s : State) (str : string) (saved : ConnectionStore) :
  disk s !! CONNECTIONS_TABS_KEY = Some str → str ≠ "" →
  parse str = Some saved →
  falsy (disk s !! CONTENT_TABS_KEY) = true ∨
  (∃ text : string,
     disk s !! CONTENT_TABS_KEY = Some text ∧
     parse (A := ContentStore) text = None) →
  ∃ s' : State,
    onMount init_connection s = Returns tt s' ∧
    contentStore s' = contentStore s.
Proof.
  intros Hget Hne Hparse Hcontent. unfold onMount.
  destruct (reduce_reconnect init_connection (tabs saved) []
              (add_events s [StoreGet CONNECTIONS_TABS_KEY]))
    as (new & Hfold & _).
  unfold mbind, M_bind.
  rewrite (getSavedData_parsed _ _ _ _ Hget Hne Hparse).
  unfold tabs_reduce. rewrite Hfold.
  unfold setConnectionStore_spread, modify.
  rewrite (getSavedData_absent (A := ContentStore)); [| done].
  eexists. split; [reflexivity | done].
Qed.

(** *** The debounced writer *)

Section Debounce.

Context `{JSON ConnectionStore} `{JSON ContentStore}.
Variable v : variant.

Lemma elapse_idle (dt : nat) (s : State) :
  timer s = None → elapse dt s = Returns tt s.
Proof. intros Hnone. unfold elapse, debounce_elapse. run. by rewrite Hnone. Qed.

Lemma elapse_pending (dt remaining : nat) (s : State) :
  timer s = Some remaining → (dt < remaining)%nat →
  elapse dt s =
    Returns tt
      (mkState (connectionStore s) (contentStore s)
               (Some (remaining - dt)%nat) (disk s) (trace s)
               (NEW_QUERY_TAB s) (shares_data s)).
Proof.
  intros Htimer Hlt. unfold elapse, debounce_elapse. run. rewrite Htimer.
  by rewrite (proj2 (Nat.leb_gt _ _) Hlt).
Qed.

Lemma elapse_fires (dt remaining : nat) (s : State) :
  timer s = Some remaining → (remaining ≤ dt)%nat →
  elapse dt s =
    Returns tt
      (mkState (connectionStore s) (contentStore s) None
         (<[CONTENT_TABS_KEY := stringify (contentStore s)]>
            (<[CONNECTIONS_TABS_KEY := stringify (connectionStore s)]>
               (disk s)))
         (trace s ++ persistence_write s) (NEW_QUERY_TAB s) (shares_data s)).
Proof.
  intros Htimer Hle. unfold elapse, debounce_elapse. run. rewrite Htimer.
  rewrite (proj2 (Nat.leb_le _ _) Hle).
  unfold updateStore_body, store_set, store_save. run.
  unfold modify, persistence_write. simpl. by rewrite <- !app_assoc.
Qed.

(** A call that reaches [updateStore()] restarts the timer and makes no
    external call. *)
Lemma reaches_updateStore_run (op : operation) (s : State) :
  reaches_updateStore op s = true →
  ∃ s' : State,
    run_operation v op s = Returns tt s' ∧
    timer s' = Some (wait v) ∧ trace s' = trace s ∧ disk s' = disk s.
Proof.
  destruct op as [tab | id | | |]; simpl; try discriminate.
  - intros Hfind. unfold addTab. run.
    destruct (List.find _ (tabs (connectionStore s))); [discriminate |].
    eexists. by split.
  - intros _. eexists. by split.
Qed.

(** While every gap is shorter than the wait, the timer never expires
    during the burst: nothing is written and a write stays pending. *)
Lemma burst_pending (calls : list (nat * operation)) :
  ∀ s : State,
    timer s = Some (wait v) →
    Forall (fun call => (call.1 < wait v)%nat) calls →
    mutating_burst v calls s →
    ∃ s1 : State,
      burst v calls s = Returns tt s1 ∧
      timer s1 = Some (wait v) ∧ trace s1 = trace s.
Proof.
  induction calls as [| [gap op] calls IH]; intros s Htimer Hgaps Hmut.
  - exists s. by split.
  - apply Forall_cons in Hgaps as [Hgap Hgaps]. simpl in Hgap.
    destruct Hmut as [Hop Hmut]. fold (mutating_burst v calls) in Hmut.
    rewrite (elapse_pending gap (wait v) s Htimer Hgap) in Hop, Hmut.
    simpl in Hop, Hmut.
    destruct (reaches_updateStore_run op _ Hop)
      as (s' & Hrun & Htimer' & Htrace' & _).
    rewrite Hrun in Hmut. simpl in Hmut.
    destruct (IH s' Htimer' Hgaps Hmut) as (s1 & Hburst & Htimer1 & Htrace1).
    exists s1. split; [| split; [done | by rewrite Htrace1, Htrace']].
    simpl. unfold mbind, M_bind.
    by rewrite (elapse_pending gap (wait v) s Htimer Hgap), Hrun.
Qed.

End Debounce.

(** C9.  A burst of one or more mutating calls ([removeTab], or [addTab] of
    an id that is not present), each made less than the wait after the one
    before, writes nothing while it lasts; once the wait has gone by after
    the last call there is exactly one write of both stores, it holds the
    stores as they are after the last call, and no write stays pending. *)
Theorem debounce_coalesces `{JSON ConnectionStore} `{JSON ContentStore}
    (v : variant) (calls : list (nat * operation)) (dt : nat) (s : State) :
  timer s = None →
  calls ≠ [] →
  Forall (fun call => (call.1 < wait v)%nat) (tail calls) →
  mutating_burst v calls s →
  (wait v ≤ dt)%nat →
  ∃ s1 s2 : State,
    burst v calls s = Returns tt s1 ∧
    trace s1 = trace s ∧
    elapse dt s1 = Returns tt s2 ∧
    trace s2 = trace s ++ persistence_write s1 ∧
    disk s2 !! CONNECTIONS_TABS_KEY = Some (stringify (connectionStore s1)) ∧
    disk s2 !! CONTENT_TABS_KEY = Some (stringify (contentStore s1)) ∧
    connectionStore s2 = connectionStore s1 ∧
    contentStore s2 = contentStore s1 ∧
    timer s2 = None.
Proof.
  intros Hidle Hne Hgaps Hmut Hdt.
  destruct calls as [| [gap op] calls]; [done |]. simpl in Hgaps.
  destruct Hmut as [Hop Hmut]. fold (mutating_burst v calls) in Hmut.
  rewrite (elapse_idle gap s Hidle) in Hop, Hmut. simpl in Hop, Hmut.
  destruct (reaches_updateStore_run v op s Hop)
    as (s' & Hrun & Htimer' & Htrace' & _).
  rewrite Hrun in Hmut. simpl in Hmut.
  destruct (burst_pending v calls s' Htimer' Hgaps Hmut)
    as (s1 & Hburst & Htimer1 & Htrace1).
  eexists s1, _. split.
  { simpl. unfold mbind, M_bind. by rewrite (elapse_idle gap s Hidle), Hrun. }
  split; [by rewrite Htrace1 |].
  split; [by apply (elapse_fires dt (wait v)) |]. simpl.
  split; [by rewrite Htrace1, Htrace' |].
  split; [rewrite lookup_insert_ne by done; by rewrite lookup_insert_eq |].
  split; [by rewrite lookup_insert_eq |]. done.
Qed.

Lemma debounce_coalesces_witness :
  timer initial_state = None ∧
  example_burst ≠ [] ∧
  Forall (fun call => (call.1 < wait ConnHeader)%nat) (tail example_burst) ∧
  @mutating_burst example_connection_codec example_content_codec ConnHeader
    example_burst initial_state ∧
  (wait ConnHeader ≤ 1000)%nat ∧
  ∃ s1 s2 : State,
    @burst example_connection_codec example_content_codec ConnHeader
      example_burst initial_state = Returns tt s1 ∧
    trace s1 = [] ∧
    @elapse example_connection_codec example_content_codec 1000 s1
      = Returns tt s2 ∧
    trace s2 =
      [StoreSet CONNECTIONS_TABS_KEY "lite";
       StoreSet CONTENT_TABS_KEY "Query";
       StoreSave] ∧
    timer s2 = None.
Proof.
  assert (Hidle : timer initial_state = None) by reflexivity.
  assert (Hne : example_burst ≠ []) by discriminate.
  assert (Hgaps : Forall (fun call => (call.1 < wait ConnHeader)%nat)
                    (tail example_burst))
    by (repeat constructor; simpl; lia).
  assert (Hmut : @mutating_burst example_connection_codec
                   example_content_codec ConnHeader example_burst
                   initial_state)
    by (repeat split; reflexivity).
  assert (Hdt : (wait ConnHeader ≤ 1000)%nat) by (simpl; lia).
  split; [exact Hidle |]. split; [exact Hne |]. split; [exact Hgaps |].
  split; [exact Hmut |]. split; [exact Hdt |].
  destruct (@debounce_coalesces example_connection_codec
              example_content_codec ConnHeader example_burst 1000
              initial_state Hidle Hne Hgaps Hmut Hdt)
    as (s1 & s2 & Hburst & Htrace1 & Hfire & Htrace2 & _ & _ & _ & _ & Htimer).
  exists s1, s2. split; [exact Hburst |]. split; [exact Htrace1 |].
  split; [exact Hfire |]. split; [| exact Htimer].
  rewrite Htrace2.
  assert (Hs1 : state_of (@burst example_connection_codec
                            example_content_codec ConnHeader example_burst
                            initial_state) = s1) by (by rewrite Hburst).
  rewrite <- Hs1. reflexivity.
Defined.

(** ** Further properties of the service *)

(** *** The operations on the active content tab *)

Lemma map_active_out_of_range (f : ContentTab.t -> ContentTab.t)
    (s : State) :
  getActiveContentTab s = None → map_active f s = tabs (contentStore s).
Proof.
  intros Hnone%getActiveContentTab_None. apply list_eq. intros i.
  destruct (tabs (contentStore s) !! i) as [t |] eqn:Ht.
  - rewrite (map_active_lookup f s i t Ht). case_decide as Hi; [| done].
    apply lookup_lt_Some in Ht. lia.
  - unfold map_active. by rewrite list_lookup_imap, Ht.
Qed.

(** The two message operations are [update_active] of their function with
    the sharing left as it is: off the ends of [tabs] the map changes
    nothing. *)
Lemma set_active_run (f : ContentTab.t -> ContentTab.t) (s : State) :
  (s' ← get;
   match getActiveContentTab s' with
   | None => mret tt
   | Some _ => setContentStore_tabs (map_active f s') (shares_data s')
   end) s = Returns tt (update_active f (shares_data s) s).
Proof.
  destruct (getActiveContentTab s) as [t |] eqn:Hactive.
  - rewrite (set_active_present f shares_data) by (by rewrite Hactive). done.
  - rewrite (set_active_absent f shares_data) by done. unfold update_active.
    rewrite map_active_out_of_range by done.
    by destruct s as [? [] ? ? ? ? ?].
Qed.

Lemma map_active_ext (f g : ContentTab.t -> ContentTab.t) (s : State) :
  (∀ t, f t = g t) → map_active f s = map_active g s.
Proof.
  intros Hfg. unfold map_active. apply imap_ext. intros i t _. simpl.
  by rewrite Hfg.
Qed.

Lemma update_active_compose (f g : ContentTab.t -> ContentTab.t)
    (shared1 shared2 : list bool) (s : State) :
  update_active f shared2 (update_active g shared1 s)
    = update_active (f ∘ g) shared2 s.
Proof.
  unfold update_active. simpl. f_equal. f_equal.
  apply list_eq. intros i. unfold map_active. simpl.
  rewrite !list_lookup_imap.
  destruct (tabs (contentStore s) !! i) as [t |]; simpl; [| done].
  by destruct (Z.of_nat i =? idx (contentStore s)).
Qed.

Lemma active_after_update (f : ContentTab.t -> ContentTab.t)
    (shared : list bool) (s : State) :
  getActiveContentTab (update_active f shared s)
    = f <$> getActiveContentTab s.
Proof.
  unfold getActiveContentTab, js_index. simpl. case_decide as Hpos; [| done].
  unfold map_active. rewrite list_lookup_imap.
  destruct (tabs (contentStore s) !! Z.to_nat (idx (contentStore s)));
    simpl; [| done].
  by rewrite Z2Nat.id, Z.eqb_refl.
Qed.

Lemma shares_after_data_twice (s : State) :
  imap (fun i shared =>
          if Z.of_nat i =? idx (contentStore s) then false else shared)
       (shares_after_data s)
    = shares_after_data s.
Proof.
  unfold shares_after_data. apply list_eq. intros i.
  rewrite !list_lookup_imap. destruct (shares_data s !! i); simpl; [| done].
  by destruct (Z.of_nat i =? idx (contentStore s)).
Qed.

Lemma setActiveContentQueryTabData_run (v : variant)
    (d : QueryContentTabData) (s : State) :
  setActiveContentQueryTabData v d s
    = Returns tt (update_active (with_data v d) (data_shares s) s).
Proof.
  unfold setActiveContentQueryTabData, data_shares.
  destruct (getActiveContentTab s) as [t |] eqn:Hactive.
  - rewrite (set_active_present _ shares_after_data)
      by (by rewrite Hactive). done.
  - rewrite (set_active_absent _ shares_after_data) by done.
    unfold update_active. rewrite map_active_out_of_range by done.
    by destruct s as [? [] ? ? ? ? ?].
Qed.

Lemma setActiveContentQueryTabMessage_run (type : MessageType.t)
    (message : string) (s : State) :
  setActiveContentQueryTabMessage type message s
    = Returns tt
        (update_active (with_error (Some (mkMessage message type)))
                       (shares_data s) s).
Proof. apply set_active_run. Qed.

Lemma resetActiveContentQueryTabMessage_run (s : State) :
  resetActiveContentQueryTabMessage s
    = Returns tt (update_active (with_error None) (shares_data s) s).
Proof. apply set_active_run. Qed.

(** The sharing after a call of [setActiveContentQueryTabData] that follows
    an update of the active tab. *)
Lemma data_shares_after_update (f : ContentTab.t -> ContentTab.t)
    (shared : list bool) (s : State) :
  shared = shares_data s ∨ shared = data_shares s →
  data_shares (update_active f shared s) = data_shares s.
Proof.
  intros Hshared. unfold data_shares at 1. rewrite active_after_update.
  unfold data_shares in *.
  destruct (getActiveContentTab s) as [t |]; simpl.
  - destruct Hshared as [-> | ->]; [done |].
    exact (shares_after_data_twice s).
  - by destruct Hshared as [-> | ->].
Qed.

Lemma error_update_lookup (e : option TabMessage) (s : State) (i : nat)
    (t : ContentTab.t) :
  tabs (contentStore s) !! i = Some t →
  ∃ t' : ContentTab.t,
    tabs (contentStore (update_active (with_error e) (shares_data s) s)) !! i
      = Some t' ∧
    error_replaced_at s e i t t'.
Proof.
  intros Ht. eexists. split; [by apply map_active_lookup |].
  unfold error_replaced_at. by case_decide.
Qed.

(** X1.  With or without an active tab, [setActiveContentQueryTabMessage]
    and [resetActiveContentQueryTabMessage] return normally, keep the
    number of content tabs, set the [error] of the tab at [contentStore.idx]
    (to the message, resp. to nothing) while keeping its label, key and
    data, and leave every other tab as it was. *)
Theorem message_update_frame (type : MessageType.t) (message : string)
    (s : State) :
  (∃ s' : State,
     setActiveContentQueryTabMessage type message s = Returns tt s' ∧
     length (tabs (contentStore s')) = length (tabs (contentStore s)) ∧
     ∀ (i : nat) (t : ContentTab.t),
       tabs (contentStore s) !! i = Some t →
       ∃ t' : ContentTab.t,
         tabs (contentStore s') !! i = Some t' ∧
         error_replaced_at s (Some (mkMessage message type)) i t t') ∧
  (∃ s' : State,
     resetActiveContentQueryTabMessage s = Returns tt s' ∧
     length (tabs (contentStore s')) = length (tabs (contentStore s)) ∧
     ∀ (i : nat) (t : ContentTab.t),
       tabs (contentStore s) !! i = Some t →
       ∃ t' : ContentTab.t,
         tabs (contentStore s') !! i = Some t' ∧
         error_replaced_at s None i t t').
Proof.
  split; eexists.
  - split; [apply setActiveContentQueryTabMessage_run |].
    split; [apply map_active_length |]. apply error_update_lookup.
  - split; [apply resetActiveContentQueryTabMessage_run |].
    split; [apply map_active_length |]. apply error_update_lookup.
Qed.

Lemma message_update_frame_witness :
  ∃ s' : State,
    setActiveContentQueryTabMessage MessageType.warning "slow query"
      query_tab_state = Returns tt s' ∧
    tabs (contentStore s') !! 0%nat
      = Some (ContentTab.mk "Query" QueryTab (QueryData (mkQueryData "" []))
                (Some (mkMessage "slow query" MessageType.warning))) ∧
    tabs (contentStore s') !! 1%nat = Some example_table_tab.
Proof.
  destruct (proj1 (message_update_frame MessageType.warning "slow query"
                     query_tab_state)) as (s' & Hrun & _ & _).
  exists s'. split; [exact Hrun |].
  assert (Hs : state_of (setActiveContentQueryTabMessage MessageType.warning
                           "slow query" query_tab_state) = s')
    by (by rewrite Hrun).
  rewrite <- Hs. split; reflexivity.
Defined.

Lemma update_active_fixed (f : ContentTab.t -> ContentTab.t) (s : State)
    (t : ContentTab.t) :
  getActiveContentTab s = Some t → f t = t →
  update_active f (shares_data s) s = s.
Proof.
  intros Hactive Hfix. apply js_index_Some in Hactive as [Hpos Hactive].
  assert (Htabs : map_active f s = tabs (contentStore s)).
  { apply list_eq. intros i.
    destruct (tabs (contentStore s) !! i) as [u |] eqn:Hu.
    - rewrite (map_active_lookup f s i u Hu). case_decide as Hi; [| done].
      rewrite <- Hi, Nat2Z.id in Hactive. congruence.
    - unfold map_active. by rewrite list_lookup_imap, Hu. }
  unfold update_active. rewrite Htabs. by destruct s as [? [] ? ? ? ? ?].
Qed.

(** X2.  Showing a message and then resetting it leaves the state that
    resetting alone leaves; when the active tab carried no message, that is
    the state before the two calls. *)
Theorem message_set_then_reset (type : MessageType.t) (message : string)
    (s : State) :
  (setActiveContentQueryTabMessage type message;;
   resetActiveContentQueryTabMessage) s
    = resetActiveContentQueryTabMessage s ∧
  (∀ t : ContentTab.t,
     getActiveContentTab s = Some t → ContentTab.error t = None →
     (setActiveContentQueryTabMessage type message;;
      resetActiveContentQueryTabMessage) s = Returns tt s).
Proof.
  assert (Hboth : (setActiveContentQueryTabMessage type message;;
                   resetActiveContentQueryTabMessage) s
                  = resetActiveContentQueryTabMessage s).
  { unfold mbind, M_bind.
    rewrite setActiveContentQueryTabMessage_run,
      !resetActiveContentQueryTabMessage_run. simpl.
    rewrite update_active_compose. reflexivity. }
  split; [exact Hboth |].
  intros t Hactive Herror. rewrite Hboth, resetActiveContentQueryTabMessage_run.
  f_equal. apply (update_active_fixed _ s t Hactive).
  destruct t. simpl in Herror. by subst.
Qed.

Lemma message_set_then_reset_witness :
  getActiveContentTab query_tab_state = Some NEW_QUERY_TAB_literal ∧
  ContentTab.error NEW_QUERY_TAB_literal = None ∧
  (setActiveContentQueryTabMessage MessageType.error "boom";;
   resetActiveContentQueryTabMessage) query_tab_state
    = Returns tt query_tab_state.
Proof.
  assert (Hactive : getActiveContentTab query_tab_state
                    = Some NEW_QUERY_TAB_literal)
    by reflexivity.
  assert (Herror : ContentTab.error NEW_QUERY_TAB_literal = None)
    by reflexivity.
  split; [exact Hactive |]. split; [exact Herror |].
  exact (proj2 (message_set_then_reset MessageType.error "boom"
                  query_tab_state) NEW_QUERY_TAB_literal Hactive Herror).
Defined.

(** X3.  Of two calls of [setActiveContentQueryTabData] in a row the last
    one wins: the state is the one the second call alone leaves. *)
Theorem setActiveContentQueryTabData_last_wins (v : variant)
    (d1 d2 : QueryContentTabData) (s : State) :
  (setActiveContentQueryTabData v d1;; setActiveContentQueryTabData v d2) s
    = setActiveContentQueryTabData v d2 s.
Proof.
  unfold mbind, M_bind.
  rewrite !setActiveContentQueryTabData_run, update_active_compose.
  rewrite data_shares_after_update by (by right).
  destruct v; reflexivity.
Qed.

(** X4.  Replacing the data of the active tab and setting its message do
    not interfere: the two calls give the same state in either order. *)
Theorem data_and_message_commute (v : variant) (d : QueryContentTabData)
    (type : MessageType.t) (message : string) (s : State) :
  (setActiveContentQueryTabData v d;;
   setActiveContentQueryTabMessage type message) s
    = (setActiveContentQueryTabMessage type message;;
       setActiveContentQueryTabData v d) s.
Proof.
  unfold mbind, M_bind.
  rewrite (setActiveContentQueryTabData_run v d s),
    (setActiveContentQueryTabMessage_run type message s).
  rewrite setActiveContentQueryTabData_run,
    setActiveContentQueryTabMessage_run, !update_active_compose.
  rewrite data_shares_after_update by (by left).
  destruct v; reflexivity.
Qed.

(** X5.  The three operations on the active content tab never call
    [updateStore()] nor anything outside: the debounce timer, the store on
    disk and the trace are as before, and so are the connection store and
    [contentStore.idx]. *)
Theorem content_operations_never_persist (v : variant) (op : operation)
    (s : State) :
  on_active_content_tab op →
  ∃ s' : State,
    run_operation v op s = Returns tt s' ∧
    timer s' = timer s ∧ disk s' = disk s ∧ trace s' = trace s ∧
    connectionStore s' = connectionStore s ∧
    idx (contentStore s') = idx (contentStore s).
Proof.
  destruct op as [tab | id | d | type message |]; simpl; try done; intros _.
  - eexists. split; [apply setActiveContentQueryTabData_run | done].
  - eexists. split; [apply setActiveContentQueryTabMessage_run | done].
  - eexists. split; [apply resetActiveContentQueryTabMessage_run | done].
Qed.

Lemma content_operations_never_persist_witness :
  on_active_content_tab (SetActiveContentQueryTabData example_query_data) ∧
  ∃ s' : State,
    run_operation Part000 (SetActiveContentQueryTabData example_query_data)
      query_tab_state = Returns tt s' ∧
    timer s' = None ∧ disk s' = ∅ ∧ trace s' = [].
Proof.
  assert (Hop : on_active_content_tab
                  (SetActiveContentQueryTabData example_query_data))
    by exact I.
  split; [exact Hop |].
  destruct (content_operations_never_persist Part000
              (SetActiveContentQueryTabData example_query_data)
              query_tab_state Hop)
    as (s' & Hrun & Htimer & Hdisk & Htrace & _).
  exists s'. split; [exact Hrun |]. split; [exact Htimer |].
  split; [exact Hdisk | exact Htrace].
Defined.

(** *** Connection tabs *)

Lemma filter_other_ids_fresh (id : string) (ts : list ConnectionTab.t) :
  id ∉ ids ts → filter (fun t => ConnectionTab.id t ≠ id) ts = ts.
Proof.
  intros Hnot. apply filter_keeps_all. intros t Ht Heq. apply Hnot.
  rewrite <- Heq. unfold ids. by apply list_elem_of_fmap_2.
Qed.

Lemma filter_other_ids_gone (id : string) (ts : list ConnectionTab.t) :
  id ∉ ids (filter (fun t => ConnectionTab.id t ≠ id) ts).
Proof.
  unfold ids. intros (t & Heq & Hin)%list_elem_of_fmap.
  apply list_elem_of_filter in Hin as [Hne _]. by apply Hne.
Qed.

(** X6.  Adding a connection whose id is new and removing it again gives
    back the connection tabs there were, with the cursor on "none"; the
    content store stays reset to the single query tab [addTab] put there. *)
Theorem addTab_then_removeTab (v : variant) (tab : ConnectionTab.t)
    (s : State) :
  ConnectionTab.id tab ∉ ids (tabs (connectionStore s)) →
  ∃ s' : State,
    (addTab v tab;; removeTab v (ConnectionTab.id tab)) s = Returns tt s' ∧
    tabs (connectionStore s') = tabs (connectionStore s) ∧
    idx (connectionStore s') = 0 ∧
    tabs (contentStore s') = [new_query_tab v s] ∧
    idx (contentStore s') = idx (contentStore s).
Proof.
  intros Hnot. eexists. split.
  { unfold mbind, M_bind. rewrite addTab_absent by done.
    apply removeTab_run. }
  simpl. split; [| done].
  rewrite filter_app, filter_other_ids_fresh by done.
  rewrite filter_cons_False by (intros Hne; by apply Hne).
  by rewrite app_nil_r.
Qed.

Lemma addTab_then_removeTab_witness :
  (ConnectionTab.id (example_tab "mysql")
     ∉ ids (tabs (connectionStore two_connections_state))) ∧
  ∃ s' : State,
    (addTab Part000 (example_tab "mysql");; removeTab Part000 "mysql")
      two_connections_state = Returns tt s' ∧
    tabs (connectionStore s') = [example_tab "pg"; example_tab "lite"] ∧
    idx (connectionStore s') = 0.
Proof.
  assert (Hnot : ConnectionTab.id (example_tab "mysql")
                   ∉ ids (tabs (connectionStore two_connections_state))).
  { simpl. intros Hin. repeat (apply elem_of_cons in Hin as [Hin | Hin];
      [discriminate Hin |]). by apply elem_of_nil in Hin. }
  split; [exact Hnot |].
  destruct (addTab_then_removeTab Part000 (example_tab "mysql")
              two_connections_state Hnot)
    as (s' & Hrun & Htabs & Hidx & _).
  exists s'. split; [exact Hrun |]. split; [exact Htabs | exact Hidx].
Defined.

(** X7.  Every operation keeps the ids of the connection tabs distinct:
    [addTab] appends only an id that [find] did not meet, [removeTab] only
    drops tabs, and the other three do not touch the connection store. *)
Theorem operations_keep_ids_distinct (v : variant) (op : operation)
    (s : State) :
  NoDup (ids (tabs (connectionStore s))) →
  ∃ s' : State,
    run_operation v op s = Returns tt s' ∧
    NoDup (ids (tabs (connectionStore s'))).
Proof.
  intros Hnodup. destruct op as [tab | id | d | type message |]; simpl.
  - destruct (decide (ConnectionTab.id tab ∈ ids (tabs (connectionStore s))))
      as [Hin | Hnot].
    + exists s. split; [by apply addTab_present | done].
    + eexists. split; [by apply addTab_absent |]. simpl.
      unfold ids. rewrite fmap_app. apply NoDup_app.
      split; [done |]. split; [| apply NoDup_singleton].
      intros x Hx ->%list_elem_of_singleton. by apply Hnot.
  - eexists. split; [apply removeTab_run |]. simpl.
    eapply sublist_NoDup; [exact Hnodup |].
    unfold ids. apply fmap_sublist, sublist_filter.
  - eexists. split; [apply setActiveContentQueryTabData_run | done].
  - eexists. split; [apply setActiveContentQueryTabMessage_run | done].
  - eexists. split; [apply resetActiveContentQueryTabMessage_run | done].
Qed.

Lemma operations_keep_ids_distinct_witness :
  NoDup (ids (tabs (connectionStore two_connections_state))) ∧
  ∃ s' : State,
    run_operation ConnHeader (AddTab (example_tab "mysql"))
      two_connections_state = Returns tt s' ∧
    NoDup (ids (tabs (connectionStore s'))).
Proof.
  assert (Hnodup : NoDup (ids (tabs (connectionStore two_connections_state)))).
  { simpl. apply NoDup_cons. split; [| apply NoDup_singleton].
    intros Hin%list_elem_of_singleton. discriminate Hin. }
  split; [exact Hnodup |].
  exact (operations_keep_ids_distinct ConnHeader
           (AddTab (example_tab "mysql")) two_connections_state Hnodup).
Defined.

(** X8.  [removeTab] is idempotent: a second call with the same id leaves
    the state of the first.  After the call no tab carries the id, and the
    content store is the one from before: closing a connection neither
    resets nor removes its content tabs. *)
Theorem removeTab_idempotent (v : variant) (id : string) (s : State) :
  (removeTab v id;; removeTab v id) s = removeTab v id s ∧
  ∃ s' : State,
    removeTab v id s = Returns tt s' ∧
    (id ∉ ids (tabs (connectionStore s'))) ∧
    contentStore s' = contentStore s.
Proof.
  split.
  - unfold mbind, M_bind. rewrite (removeTab_run v id s), removeTab_run.
    simpl. rewrite filter_other_ids_fresh; [done |].
    apply filter_other_ids_gone.
  - eexists. split; [apply removeTab_run |]. simpl.
    split; [apply filter_other_ids_gone | done].
Qed.

(** *** The shape of the content tabs *)

Lemma map_active_Forall (P : ContentTab.t -> Prop)
    (f : ContentTab.t -> ContentTab.t) (s : State) :
  (∀ t, P t → P (f t)) →
  Forall P (tabs (contentStore s)) → Forall P (map_active f s).
Proof.
  intros Hf Hall. apply Forall_lookup. intros i x Hx.
  unfold map_active in Hx.
  apply list_lookup_imap_Some in Hx as (t & Ht & ->).
  rewrite Forall_lookup in Hall. specialize (Hall i t Ht).
  destruct (Z.of_nat i =? idx (contentStore s)); auto.
Qed.

(** X10.  In db-connection-header.tsx every operation keeps the content
    tabs well shaped (a [QueryTab] key with query data, a
    [TableStructureTab] key with table data): [addTab] installs a
    well-shaped tab, the message operations keep key and data, and
    [setActiveContentQueryTabData] sets the key together with the data. *)
Theorem operations_keep_shapes (op : operation) (s : State) :
  Forall shape_matches_key (tabs (contentStore s)) →
  ∃ s' : State,
    run_operation ConnHeader op s = Returns tt s' ∧
    Forall shape_matches_key (tabs (contentStore s')).
Proof.
  intros Hall. destruct op as [tab | id | d | type message |]; simpl.
  - destruct (decide (ConnectionTab.id tab ∈ ids (tabs (connectionStore s))))
      as [Hin | Hnot].
    + exists s. split; [by apply addTab_present | done].
    + eexists. split; [by apply addTab_absent |]. simpl.
      by repeat constructor.
  - eexists. split; [apply removeTab_run | done].
  - eexists. split; [apply setActiveContentQueryTabData_run |].
    simpl. by apply map_active_Forall.
  - eexists. split; [apply setActiveContentQueryTabMessage_run |].
    simpl. by apply map_active_Forall.
  - eexists. split; [apply resetActiveContentQueryTabMessage_run |].
    simpl. by apply map_active_Forall.
Qed.

Lemma operations_keep_shapes_witness :
  Forall shape_matches_key (tabs (contentStore table_tab_state)) ∧
  ∃ s' : State,
    run_operation ConnHeader
      (SetActiveContentQueryTabData example_query_data) table_tab_state
      = Returns tt s' ∧
    Forall shape_matches_key (tabs (contentStore s')).
Proof.
  assert (Hall : Forall shape_matches_key
                   (tabs (contentStore table_tab_state)))
    by (repeat constructor).
  split; [exact Hall |].
  exact (operations_keep_shapes
           (SetActiveContentQueryTabData example_query_data)
           table_tab_state Hall).
Defined.

(** In part_000 the same call leaves a [TableStructureTab] key on query
    data. *)
Example part_000_breaks_shape :
  ¬ Forall shape_matches_key
      (tabs (contentStore
         (state_of (setActiveContentQueryTabData Part000 example_query_data
                      table_tab_state)))).
Proof. intros Hall. by apply Forall_cons in Hall as [Hhead _]. Qed.

(** *** getSavedData and hydration, for every disk *)

Lemma getSavedData_run {A : Type} `{JSON A} (key : string)
    (defaultValue : any A) (s : State) :
  getSavedData key defaultValue s
    = Returns (saved_value defaultValue (disk s !! key))
              (add_events s [StoreGet key]).
Proof.
  unfold getSavedData, store_get, saved_value. run.
  destruct (disk s !! key) as [text |]; simpl; [| done].
  destruct (String.eqb text ""); [done |].
  unfold JSON_parse. by destruct (parse text).
Qed.

(** X11.  Once [store.get] has resolved, [getSavedData] resolves whatever
    the text is: it has read the key once, and it resolves to the parsed
    value when the text is not empty and parses, and to the default of the
    caller in every other case (no entry, empty text, or a SyntaxError of
    [JSON.parse], which it catches). *)
Theorem getSavedData_catches_parse_error {A : Type} `{JSON A} (key : string)
    (defaultValue : any A) (s : State) :
  ∃ r : any A,
    getSavedData key defaultValue s
      = Returns r (add_events s [StoreGet key]) ∧
    (∀ (text : string) (a : A),
       disk s !! key = Some text → text ≠ "" → parse text = Some a →
       r = of_type a) ∧
    (disk s !! key = None ∨ disk s !! key = Some "" ∨
     (∃ text : string, disk s !! key = Some text ∧ parse text = None) →
     r = defaultValue).
Proof.
  eexists. split; [apply getSavedData_run |]. unfold saved_value. split.
  - intros text a -> Hne ->. by destruct (String.eqb_spec text "").
  - intros [-> | [-> | (text & -> & ->)]]; [done | done |].
    by destruct (String.eqb text "").
Qed.

Lemma getSavedData_catches_parse_error_witness :
  disk saved_state !! CONTENT_TABS_KEY = Some "Query" ∧
  "Query" ≠ "" ∧
  @parse _ example_content_codec "Query" = Some saved_content ∧
  @getSavedData _ example_content_codec CONTENT_TABS_KEY empty_array
    saved_state
    = Returns (of_type saved_content)
              (add_events saved_state [StoreGet CONTENT_TABS_KEY]).
Proof.
  assert (Hget : disk saved_state !! CONTENT_TABS_KEY = Some "Query")
    by reflexivity.
  assert (Hne : "Query" ≠ "") by discriminate.
  assert (Hparse : @parse _ example_content_codec "Query"
                   = Some saved_content) by reflexivity.
  split; [exact Hget |]. split; [exact Hne |]. split; [exact Hparse |].
  destruct (@getSavedData_catches_parse_error _ example_content_codec
              CONTENT_TABS_KEY empty_array saved_state)
    as (r & Hrun & Hparsed & _).
  rewrite Hrun. f_equal. exact (Hparsed "Query" saved_content Hget Hne Hparse).
Defined.

Section HydrationRun.

Context `{JSON ConnectionStore} `{JSON ContentStore}.
Variable init_connection : list event -> ConnectionConfig -> bool.

Lemma logged_app (es1 es2 : list event) :
  logged (es1 ++ es2) = (logged es1 + logged es2)%nat.
Proof. unfold logged. by rewrite List.filter_app, length_app. Qed.

(** The fold only calls the backend and the console, and logs once per tab
    it drops. *)
Lemma reduce_reconnect_events (ts : list ConnectionTab.t) :
  ∀ (res : list ConnectionTab.t) (s : State),
  ∃ (new : list event) (res' : list ConnectionTab.t),
    reduce_async (reconnect init_connection) ts res s
      = Returns res' (add_events s new) ∧
    Forall is_reconnect_event new ∧
    (logged new + length res' = length res + length ts)%nat.
Proof.
  induction ts as [| t ts IH]; intros res s.
  - exists [], res. simpl. run. rewrite add_events_nil.
    split; [done |]. split; [constructor | simpl; lia].
  - simpl. unfold mbind, M_bind at 1. rewrite reconnect_run.
    destruct (init_connection (trace s) (ConnectionTab.connection t)).
    + destruct (IH (res ++ [t])
                  (add_events s [Invoke (ConnectionTab.connection t) true]))
        as (new & res' & Hrun & Hevents & Hcount).
      exists (Invoke (ConnectionTab.connection t) true :: new), res'.
      rewrite Hrun, add_events_add_events. split; [done |].
      split; [by constructor |].
      rewrite length_app in Hcount. simpl in Hcount.
      change (logged (Invoke (ConnectionTab.connection t) true :: new))
        with (logged new). simpl. lia.
    + destruct (IH res
                  (add_events s
                     [Invoke (ConnectionTab.connection t) false; ConsoleLog]))
        as (new & res' & Hrun & Hevents & Hcount).
      exists (Invoke (ConnectionTab.connection t) false :: ConsoleLog :: new),
        res'.
      rewrite Hrun, add_events_add_events. split; [done |].
      split; [by repeat constructor |].
      change (logged (Invoke (ConnectionTab.connection t) false
                      :: ConsoleLog :: new))
        with (S (logged new)). simpl. lia.
Qed.

(** Hydration as a function of what is on disk. *)
Lemma onMount_run (s : State) :
  match saved_value (A := ConnectionStore) empty_array
          (disk s !! CONNECTIONS_TABS_KEY) with
  | empty_array =>
      onMount init_connection s
        = Throws TypeError (add_events s [StoreGet CONNECTIONS_TABS_KEY])
  | of_type saved =>
      ∃ new : list event,
        (invocations new).*1 = ConnectionTab.connection <$> tabs saved ∧
        answers init_connection
          (trace s ++ [StoreGet CONNECTIONS_TABS_KEY]) new ∧
        Forall is_reconnect_event new ∧
        (logged new + length (kept_by (tabs saved) (invocations new).*2)
         = length (tabs saved))%nat ∧
        onMount init_connection s =
          Returns tt
            (mkState
               (mkStore (kept_by (tabs saved) (invocations new).*2)
                        (idx saved))
               (match saved_value (A := ContentStore) empty_array
                        (disk s !! CONTENT_TABS_KEY) with
                | of_type c => c
                | empty_array => contentStore s
                end)
               (timer s) (disk s)
               (trace s ++ [StoreGet CONNECTIONS_TABS_KEY] ++ new
                       ++ [StoreGet CONTENT_TABS_KEY])
               (NEW_QUERY_TAB s)
               (match saved_value (A := ContentStore) empty_array
                        (disk s !! CONTENT_TABS_KEY) with
                | of_type _ => []
                | empty_array => shares_data s
                end))
  end.
Proof.
  destruct (saved_value (A := ConnectionStore) empty_array
          (disk s !! CONNECTIONS_TABS_KEY))
    as [| saved] eqn:Hsaved.
  - unfold onMount, getSavedData_default, mbind, M_bind.
    by rewrite getSavedData_run, Hsaved.
  - destruct (reduce_reconnect init_connection (tabs saved) []
                (add_events s [StoreGet CONNECTIONS_TABS_KEY]))
      as (new & Hfold & Hcalls & Hanswers).
    destruct (reduce_reconnect_events (tabs saved) []
                (add_events s [StoreGet CONNECTIONS_TABS_KEY]))
      as (new' & res' & Hfold' & Hevents & Hcount).
    rewrite Hfold in Hfold'. injection Hfold' as Hres Htrace.
    apply app_inv_head in Htrace. subst new' res'.
    exists new. split; [done |]. split; [done |]. split; [done |].
    split; [simpl in Hcount; lia |].
    unfold onMount, getSavedData_default, mbind, M_bind.
    rewrite getSavedData_run, Hsaved. unfold tabs_reduce. rewrite Hfold.
    simpl. unfold setConnectionStore_spread, modify. simpl.
    rewrite getSavedData_run. simpl.
    unfold setContentStore_merge, modify, add_events. simpl.
    destruct (saved_value (A := ContentStore) empty_array
                (disk s !! CONTENT_TABS_KEY));
      simpl; by rewrite <- !app_assoc.
Qed.

Lemma saved_value_parsed {A : Type} `{JSON A} (text : string) (a : A)
    (defaultValue : any A) :
  text ≠ "" → parse text = Some a →
  saved_value defaultValue (Some text) = of_type a.
Proof.
  intros Hne Hparse. unfold saved_value.
  destruct (String.eqb_spec text ""); [done |]. by rewrite Hparse.
Qed.

End HydrationRun.

Lemma reconnect_events_not_writes (new : list event) :
  Forall is_reconnect_event new → Forall (fun e => ¬ is_write e) new.
Proof. intros Hall. eapply Forall_impl; [exact Hall |].
  intros e Hr Hw. by destruct e.
Qed.

(** X12.  Hydration never writes: whatever is on disk and whatever the
    backend answers, the callback of [onMount] makes no [store.set],
    [store.save] or [store.clear] call, leaves the disk as it was and
    schedules no write, also when it drops tabs for a failed
    reconnection. *)
Theorem hydration_never_writes `{JSON ConnectionStore} `{JSON ContentStore}
    (init_connection : list event -> ConnectionConfig -> bool) (s : State) :
  disk (state_of (onMount init_connection s)) = disk s ∧
  timer (state_of (onMount init_connection s)) = timer s ∧
  ∃ new : list event,
    trace (state_of (onMount init_connection s)) = trace s ++ new ∧
    Forall (fun e => ¬ is_write e) new.
Proof.
  pose proof (onMount_run init_connection s) as Hrun.
  destruct (saved_value (A := ConnectionStore) empty_array
              (disk s !! CONNECTIONS_TABS_KEY)) as [| saved].
  - rewrite Hrun. simpl. split; [done |]. split; [done |].
    exists [StoreGet CONNECTIONS_TABS_KEY]. split; [reflexivity |].
    constructor; [by intros [] | constructor].
  - destruct Hrun as (new & _ & _ & Hevents & _ & ->). simpl.
    split; [done |]. split; [done |].
    exists ([StoreGet CONNECTIONS_TABS_KEY] ++ new
            ++ [StoreGet CONTENT_TABS_KEY]).
    split; [reflexivity |].
    constructor; [by intros [] |].
    apply Forall_app. split; [by apply reconnect_events_not_writes |].
    constructor; [by intros [] | constructor].
Qed.

(** X13.  The content store is restored as saved, without a check: when
    both texts on disk parse, [contentStore] after hydration is the parsed
    content store, cursor included. *)
Theorem hydration_restores_content `{JSON ConnectionStore} `{JSON ContentStore}
    (init_connection : list event -> ConnectionConfig -> bool) (s : State)
    (str text : string) (saved : ConnectionStore) (content : ContentStore) :
  disk s !! CONNECTIONS_TABS_KEY = Some str → str ≠ "" →
  parse str = Some saved →
  disk s !! CONTENT_TABS_KEY = Some text → text ≠ "" →
  parse text = Some content →
  ∃ s' : State,
    onMount init_connection s = Returns tt s' ∧
    contentStore s' = content ∧
    getActiveContentTab s' = js_index (tabs content) (idx content).
Proof.
  intros Hget Hne Hparse Hget' Hne' Hparse'.
  pose proof (onMount_run init_connection s) as Hrun.
  rewrite Hget, (saved_value_parsed str saved) in Hrun by done.
  destruct Hrun as (new & _ & _ & _ & _ & Hrun).
  rewrite Hget', (saved_value_parsed text content) in Hrun by done.
  eexists. split; [exact Hrun |]. by split.
Qed.

Lemma hydration_restores_content_witness :
  disk saved_state !! CONNECTIONS_TABS_KEY = Some "pg,down,lite" ∧
  "pg,down,lite" ≠ "" ∧
  @parse _ example_connection_codec "pg,down,lite" = Some saved_connections ∧
  disk saved_state !! CONTENT_TABS_KEY = Some "Query" ∧
  "Query" ≠ "" ∧
  @parse _ example_content_codec "Query" = Some saved_content ∧
  ∃ s' : State,
    @onMount example_connection_codec example_content_codec example_backend
      saved_state = Returns tt s' ∧
    contentStore s' = saved_content.
Proof.
  assert (Hget : disk saved_state !! CONNECTIONS_TABS_KEY
                 = Some "pg,down,lite") by reflexivity.
  assert (Hne : "pg,down,lite" ≠ "") by discriminate.
  assert (Hparse : @parse _ example_connection_codec "pg,down,lite"
                   = Some saved_connections) by reflexivity.
  assert (Hget' : disk saved_state !! CONTENT_TABS_KEY = Some "Query")
    by reflexivity.
  assert (Hne' : "Query" ≠ "") by discriminate.
  assert (Hparse' : @parse _ example_content_codec "Query"
                    = Some saved_content) by reflexivity.
  repeat (split; [assumption |]).
  destruct (@hydration_restores_content example_connection_codec
              example_content_codec example_backend saved_state
              "pg,down,lite" "Query" saved_connections saved_content
              Hget Hne Hparse Hget' Hne' Hparse')
    as (s' & Hrun & Hcontent & _).
  exists s'. split; [exact Hrun | exact Hcontent].
Defined.

(** X14.  A failed reconnection is logged once and never stops hydration:
    with a saved connection store on disk, hydration returns, and the
    number of [console.log] calls is the number of saved tabs that were not
    restored. *)
Theorem hydration_logs_each_failure `{JSON ConnectionStore} `{JSON ContentStore}
    (init_connection : list event -> ConnectionConfig -> bool) (s : State)
    (str : string) (saved : ConnectionStore) :
  disk s !! CONNECTIONS_TABS_KEY = Some str → str ≠ "" →
  parse str = Some saved →
  ∃ (s' : State) (new : list event),
    onMount init_connection s = Returns tt s' ∧
    trace s' = trace s ++ [StoreGet CONNECTIONS_TABS_KEY] ++ new
                       ++ [StoreGet CONTENT_TABS_KEY] ∧
    (logged new + length (tabs (connectionStore s'))
     = length (tabs saved))%nat.
Proof.
  intros Hget Hne Hparse.
  pose proof (onMount_run init_connection s) as Hrun.
  rewrite Hget, (saved_value_parsed str saved) in Hrun by done.
  destruct Hrun as (new & _ & _ & _ & Hcount & Hrun).
  eexists; exists new. split; [exact Hrun |]. by split.
Qed.

Lemma hydration_logs_each_failure_witness :
  disk saved_state !! CONNECTIONS_TABS_KEY = Some "pg,down,lite" ∧
  "pg,down,lite" ≠ "" ∧
  @parse _ example_connection_codec "pg,down,lite" = Some saved_connections ∧
  ∃ (s' : State) (new : list event),
    @onMount example_connection_codec example_content_codec example_backend
      saved_state = Returns tt s' ∧
    (logged new + length (tabs (connectionStore s')) = 3)%nat.
Proof.
  assert (Hget : disk saved_state !! CONNECTIONS_TABS_KEY
                 = Some "pg,down,lite") by reflexivity.
  assert (Hne : "pg,down,lite" ≠ "") by discriminate.
  assert (Hparse : @parse _ example_connection_codec "pg,down,lite"
                   = Some saved_connections) by reflexivity.
  repeat (split; [assumption |]).
  destruct (@hydration_logs_each_failure example_connection_codec
              example_content_codec example_backend saved_state
              "pg,down,lite" saved_connections Hget Hne Hparse)
    as (s' & new & Hrun & _ & Hcount).
  exists s', new. split; [exact Hrun | exact Hcount].
Defined.

(** *** Writing and reading back *)

Lemma kept_by_all (ts : list ConnectionTab.t) :
  kept_by ts ((fun _ => true) <$> ts) = ts.
Proof.
  rewrite (kept_by_fmap (fun _ => true)). by apply filter_keeps_all.
Qed.

(** X15.  Round trip through the disk.  When a pending write fires and the
    application is started again, hydration restores both stores as they
    were written, provided the two texts parse back to the stores they were
    made from and are not empty, and the backend accepts every saved
    connection. *)
Theorem persist_then_hydrate `{JSON ConnectionStore} `{JSON ContentStore}
    (init_connection : list event -> ConnectionConfig -> bool) (s : State)
    (remaining dt : nat) :
  timer s = Some remaining → (remaining ≤ dt)%nat →
  parse (stringify (connectionStore s)) = Some (connectionStore s) →
  stringify (connectionStore s) ≠ "" →
  parse (stringify (contentStore s)) = Some (contentStore s) →
  stringify (contentStore s) ≠ "" →
  (∀ tr config, init_connection tr config = true) →
  ∃ s1 s2 : State,
    elapse dt s = Returns tt s1 ∧
    onMount init_connection (restart s1) = Returns tt s2 ∧
    connectionStore s2 = connectionStore s ∧
    contentStore s2 = contentStore s.
Proof.
  intros Htimer Hle Hconn Hconn_ne Hcontent Hcontent_ne Haccept.
  pose proof (onMount_run init_connection
                (restart
                   (mkState (connectionStore s) (contentStore s) None
                      (<[CONTENT_TABS_KEY := stringify (contentStore s)]>
                         (<[CONNECTIONS_TABS_KEY :=
                              stringify (connectionStore s)]> (disk s)))
                      (trace s ++ persistence_write s)
                      (NEW_QUERY_TAB s) (shares_data s)))) as Hrun.
  simpl in Hrun.
  rewrite lookup_insert_ne, lookup_insert_eq in Hrun by done.
  rewrite (saved_value_parsed _ (connectionStore s)) in Hrun by done.
  destruct Hrun as (new & Hcalls & Hanswers & _ & _ & Hrun).
  rewrite lookup_insert_eq in Hrun.
  rewrite (saved_value_parsed _ (contentStore s)) in Hrun by done.
  eexists. eexists. split; [by apply (elapse_fires dt remaining) |].
  split; [exact Hrun |]. simpl. split; [| done].
  rewrite (answers_stateless _ (fun _ => true) new Haccept _ Hanswers), Hcalls.
  rewrite <- list_fmap_compose.
  change ((fun _ : ConnectionConfig => true) ∘ ConnectionTab.connection)
    with (fun _ : ConnectionTab.t => true).
  rewrite kept_by_all. by destruct (connectionStore s).
Qed.

Lemma persist_then_hydrate_witness :
  timer unsaved_state = Some 1000%nat ∧
  (1000 ≤ 1000)%nat ∧
  @parse _ example_connection_codec
    (@stringify _ example_connection_codec (connectionStore unsaved_state))
    = Some (connectionStore unsaved_state) ∧
  @parse _ example_content_codec
    (@stringify _ example_content_codec (contentStore unsaved_state))
    = Some (contentStore unsaved_state) ∧
  ∃ s1 s2 : State,
    @elapse example_connection_codec example_content_codec 1000 unsaved_state
      = Returns tt s1 ∧
    @onMount example_connection_codec example_content_codec
      accepting_backend (restart s1) = Returns tt s2 ∧
    connectionStore s2 = saved_connections ∧
    contentStore s2 = saved_content.
Proof.
  assert (Htimer : timer unsaved_state = Some 1000%nat) by reflexivity.
  assert (Hle : (1000 ≤ 1000)%nat) by lia.
  assert (Hconn : @parse _ example_connection_codec
                    (@stringify _ example_connection_codec
                       (connectionStore unsaved_state))
                  = Some (connectionStore unsaved_state)) by reflexivity.
  assert (Hconn_ne : @stringify _ example_connection_codec
                       (connectionStore unsaved_state) ≠ "")
    by discriminate.
  assert (Hcontent : @parse _ example_content_codec
                       (@stringify _ example_content_codec
                          (contentStore unsaved_state))
                     = Some (contentStore unsaved_state)) by reflexivity.
  assert (Hcontent_ne : @stringify _ example_content_codec
                          (contentStore unsaved_state) ≠ "")
    by discriminate.
  split; [exact Htimer |]. split; [exact Hle |]. split; [exact Hconn |].
  split; [exact Hcontent |].
  exact (@persist_then_hydrate example_connection_codec example_content_codec
           accepting_backend unsaved_state 1000%nat 1000%nat Htimer Hle
           Hconn Hconn_ne Hcontent Hcontent_ne (fun _ _ => eq_refl)).
Defined.

(** *** clearStore *)

(** X16.  [clearStore] empties the disk and nothing else: both stores in
    memory and a pending debounced write are left alone.  So when a write
    is pending, it still fires afterwards and puts both stores back on
    disk. *)
Theorem clearStore_keeps_pending_write
    `{JSON ConnectionStore} `{JSON ContentStore} (s : State)
    (remaining dt : nat) :
  timer s = Some remaining → (remaining ≤ dt)%nat →
  ∃ s1 s2 : State,
    clearStore s = Returns tt s1 ∧
    disk s1 = ∅ ∧
    connectionStore s1 = connectionStore s ∧
    contentStore s1 = contentStore s ∧
    timer s1 = timer s ∧
    elapse dt s1 = Returns tt s2 ∧
    disk s2 !! CONNECTIONS_TABS_KEY = Some (stringify (connectionStore s)) ∧
    disk s2 !! CONTENT_TABS_KEY = Some (stringify (contentStore s)).
Proof.
  intros Htimer Hle. eexists. eexists.
  split; [reflexivity |]. simpl. repeat (split; [reflexivity |]).
  split; [by apply (elapse_fires dt remaining) |]. simpl.
  split; [rewrite lookup_insert_ne by done; by rewrite lookup_insert_eq |].
  by rewrite lookup_insert_eq.
Qed.

Lemma clearStore_keeps_pending_write_witness :
  timer unsaved_state = Some 1000%nat ∧
  (1000 ≤ 1500)%nat ∧
  ∃ s1 s2 : State,
    clearStore unsaved_state = Returns tt s1 ∧
    disk s1 = ∅ ∧
    @elapse example_connection_codec example_content_codec 1500 s1
      = Returns tt s2 ∧
    disk s2 !! CONNECTIONS_TABS_KEY = Some "pg,down,lite".
Proof.
  assert (Htimer : timer unsaved_state = Some 1000%nat) by reflexivity.
  assert (Hle : (1000 ≤ 1500)%nat) by lia.
  split; [exact Htimer |]. split; [exact Hle |].
  destruct (@clearStore_keeps_pending_write example_connection_codec
              example_content_codec unsaved_state 1000%nat 1500%nat
              Htimer Hle)
    as (s1 & s2 & Hclear & Hdisk & _ & _ & _ & Hfire & Hconn & _).
  exists s1, s2. split; [exact Hclear |]. split; [exact Hdisk |].
  split; [exact Hfire | exact Hconn].
Defined.

(** X17.  After [clearStore], the callback of [onMount] of the next launch
    stops with a TypeError at its first step: the disk has no
    ["_conn_tabs"] entry, [getSavedData] resolves to [[]], and neither
    store is hydrated. *)
Theorem clearStore_then_restart `{JSON ConnectionStore} `{JSON ContentStore}
    (init_connection : list event -> ConnectionConfig -> bool) (s : State) :
  ∃ s1 : State,
    clearStore s = Returns tt s1 ∧
    onMount init_connection (restart s1)
      = Throws TypeError
          (mkState empty_store empty_store None ∅
                   [StoreGet CONNECTIONS_TABS_KEY] NEW_QUERY_TAB_literal []).
Proof.
  eexists. split; [reflexivity |].
  pose proof (onMount_run init_connection
                (restart (state_of (clearStore s)))) as Hrun.
  simpl in Hrun. rewrite lookup_empty in Hrun. simpl in Hrun. exact Hrun.
Qed.

(** *** The header of the sidebar *)

(** X18.  In [DbConnectionHeader], for every connection mode exactly one of
    the three [<Match>] conditions holds, so the [<Switch>] always shows one
    credentials row: the path for "File", the socket for "Socket", the host
    for anything else. *)
Theorem credentials_switch_total (mode : string) :
  length (List.filter fst (credentials_matches mode)) = 1%nat ∧
  switch (credentials_matches mode) =
    Some (if String.eqb mode "File" then PathRow
          else if String.eqb mode "Socket" then SocketRow
          else HostRow).
Proof.
  unfold switch, credentials_matches, includes. simpl.
  destruct (String.eqb_spec mode "File") as [-> | Hfile]; [done |].
  destruct (String.eqb_spec mode "Socket") as [-> | Hsocket]; [done |].
  done.
Qed.
